(** * ImageToUrlWeb: the upload / share handlers of [app.py]

    A shallow embedding of the two Flask handlers [api_upload_file] and
    [serve_shared_file] of [src/app.py] (and of its serverless twin
    [src/api/app.py], which differs only in two constants), together with
    the library routines they call: [str.split], [str.lower],
    [werkzeug.utils.secure_filename], [uuid.uuid4().hex],
    [os.path.join], [werkzeug.security.safe_join] and
    [send_from_directory].

    Conventions.
    - A Python [str] is a [string]: a sequence of code points below 256.
      That is exactly the domain of a WSGI header value (Latin-1 decoded);
      file names and URL segments are covered for the Latin-1 repertoire.
    - The service runs on POSIX ([os.sep = "/"], no [os.path.altsep]).
    - The storage backend is the file system, a finite map from the
      absolute path of a regular file to its content.  A path handed to
      the operating system is resolved against the working directory of
      the process ([os_resolve]); symbolic links and the "." and ".."
      entries of directories are not modelled.  [file.save] hands over
      the path it is given; Flask's [send_from_directory] first joins
      [app.root_path], the directory of [app.py], in front of a relative
      one.  Both directories are part of the configuration of a
      deployment ([Config]); Flask computes [app.root_path] as an
      absolute path.
    - [os.urandom] and the clock are inputs of the upload handler; the
      error that the operating system may raise when a stored file is
      opened is an input of the share handler.  [file.save] is taken to
      succeed: the upload handler has no code for its failure.
    - The share handler is modelled for a plain GET (no conditional or
      range headers), and from its arguments on; the URL rule that feeds
      it is modelled apart, on the request path ([match_share_rule]).
    - The documentation view and the landing page of [src/app.py] are
      modelled after the two handlers; the start-up code that creates
      the upload folder is not, the file system here having no
      directories of its own. *)

From Stdlib Require Import ZArith Ascii String List Lia.
From Stdlib.Strings Require Import Byte.
From stdpp Require Import base option gmap strings list fin_maps.

Local Open Scope Z_scope.
Local Open Scope string_scope.

(* ===================================================================== *)
(** ** Python strings *)
(* ===================================================================== *)

Module Py.

Definition ord (c : ascii) : N := N_of_ascii c.
Definition chr (n : N) : ascii := ascii_of_N n.

Definition between (lo hi : N) (c : ascii) : bool :=
  (N.leb lo (ord c) && N.leb (ord c) hi)%bool.

(** [str.isspace] on one code point below 256: TAB..CR, FS..US, SPACE,
    NEL (0x85) and NO-BREAK SPACE (0xA0). *)
Definition isspace (c : ascii) : bool :=
  (between 9 13 c || between 28 32 c
   || N.eqb (ord c) 133 || N.eqb (ord c) 160)%bool.

(** [str.lower] on one code point below 256: A-Z, and the Latin-1
    capitals 0xC0-0xDE except the multiplication sign 0xD7. *)
Definition lower_char (c : ascii) : ascii :=
  if (between 65 90 c
      || (between 192 222 c && negb (N.eqb (ord c) 215)))%bool
  then chr (ord c + 32) else c.

Fixpoint lower (s : string) : string :=
  match s with
  | EmptyString => EmptyString
  | String c r => String (lower_char c) (lower r)
  end.

(** [s.split(sep)] for a separator test [p]: every separator character
    closes a piece, so the result is never the empty list. *)
Fixpoint split_when (p : ascii -> bool) (s : string) : list string :=
  match s with
  | EmptyString => [EmptyString]
  | String c r =>
      if p c then EmptyString :: split_when p r
      else match split_when p r with
           | w :: ws => String c w :: ws
           | [] => [String c EmptyString]
           end
  end.

Definition nonempty (s : string) : bool :=
  match s with EmptyString => false | String _ _ => true end.

(** [s.split()]: runs of white space separate the words, and leading or
    trailing white space yields no empty word. *)
Definition split (s : string) : list string :=
  List.filter nonempty (split_when isspace s).

(** [s.split(c)] for a one-character separator. *)
Definition split_on (c : ascii) (s : string) : list string :=
  split_when (Ascii.eqb c) s.

(** [sep.join(words)]. *)
Fixpoint join (sep : string) (ws : list string) : string :=
  match ws with
  | [] => EmptyString
  | [w] => w
  | w :: rest => w +:+ sep +:+ join sep rest
  end.

(** [s.replace(a, b)] for single characters. *)
Fixpoint replace_char (a b : ascii) (s : string) : string :=
  match s with
  | EmptyString => EmptyString
  | String c r => String (if Ascii.eqb c a then b else c) (replace_char a b r)
  end.

Fixpoint filter (p : ascii -> bool) (s : string) : string :=
  match s with
  | EmptyString => EmptyString
  | String c r => if p c then String c (filter p r) else filter p r
  end.

Fixpoint lstrip (p : ascii -> bool) (s : string) : string :=
  match s with
  | EmptyString => EmptyString
  | String c r => if p c then lstrip p r else s
  end.

Fixpoint rstrip (p : ascii -> bool) (s : string) : string :=
  match s with
  | EmptyString => EmptyString
  | String c r =>
      match rstrip p r with
      | EmptyString => if p c then EmptyString else String c EmptyString
      | String _ _ as r' => String c r'
      end
  end.

(** [s.strip(chars)], with [p] the membership test of [chars]. *)
Definition strip (p : ascii -> bool) (s : string) : string :=
  rstrip p (lstrip p s).

(** [s.startswith(prefix)]. *)
Fixpoint startswith (pre s : string) : bool :=
  match pre, s with
  | EmptyString, _ => true
  | String _ _, EmptyString => false
  | String a pre', String c s' => (Ascii.eqb a c && startswith pre' s')%bool
  end.

(** [s.endswith(c)] for a single character. *)
Fixpoint endswith_char (c : ascii) (s : string) : bool :=
  match s with
  | EmptyString => false
  | String a EmptyString => Ascii.eqb a c
  | String _ r => endswith_char c r
  end.

(** [s[:n]]. *)
Fixpoint take (n : nat) (s : string) : string :=
  match n, s with
  | O, _ => EmptyString
  | _, EmptyString => EmptyString
  | S k, String c r => String c (take k r)
  end.

(** [c in s]. *)
Fixpoint contains (c : ascii) (s : string) : bool :=
  match s with
  | EmptyString => false
  | String a r => (Ascii.eqb a c || contains c r)%bool
  end.

(** Every character of [s] passes [p]. *)
Fixpoint all (p : ascii -> bool) (s : string) : bool :=
  match s with
  | EmptyString => true
  | String c r => (p c && all p r)%bool
  end.

(** The string of the [n] code points from [lo] on. *)
Fixpoint code_points (lo : N) (n : nat) : string :=
  match n with
  | O => EmptyString
  | S k => String (chr lo) (code_points (lo + 1) k)
  end.

(** Truthiness of an [Optional[str]]: [None] and [''] are false. *)
Definition truthy (o : option string) : bool :=
  match o with
  | Some (String _ _) => true
  | _ => false
  end.

End Py.

(* ===================================================================== *)
(** ** [posixpath] *)
(* ===================================================================== *)

Module Posixpath.

(** [os.path.join(a, b)]: an absolute [b] discards [a]. *)
Definition join (a b : string) : string :=
  if Py.startswith "/" b then b
  else if (negb (Py.nonempty a) || Py.endswith_char "/" a)%bool
       then a +:+ b
       else a +:+ "/" +:+ b.

Definition isabs (s : string) : bool := Py.startswith "/" s.

(** One turn of the loop of [normpath] over the components; [stack]
    is [new_comps] with its last element first. *)
Definition normpath_step (initial_slashes : nat) (stack : list string)
    (comp : string) : list string :=
  if (String.eqb comp "" || String.eqb comp ".")%bool then stack
  else if (negb (String.eqb comp "..")
           || (Nat.eqb initial_slashes 0
               && match stack with [] => true | _ => false end)
           || match stack with top :: _ => String.eqb top ".." | [] => false end)%bool
       then comp :: stack
       else match stack with
            | _ :: below => below
            | [] => stack
            end.

Definition normpath (path : string) : string :=
  if String.eqb path "" then "."
  else
    let initial_slashes : nat :=
      if Py.startswith "/" path
      then if (Py.startswith "//" path && negb (Py.startswith "///" path))%bool
           then 2%nat else 1%nat
      else 0%nat in
    let comps := Py.split_on "/" path in
    let new_comps := rev (fold_left (normpath_step initial_slashes) comps []) in
    let joined := Py.join "/" new_comps in
    let path' :=
      match initial_slashes with
      | 0%nat => joined
      | 1%nat => "/" +:+ joined
      | _ => "//" +:+ joined
      end in
    if Py.nonempty path' then path' else ".".



End Posixpath.

(** The absolute path that the operating system resolves [path] to, for
    a process whose working directory is [cwd]. *)
Definition os_resolve (cwd path : string) : string := Posixpath.join cwd path.

(* ===================================================================== *)
(** ** [werkzeug]: file names, safe joins, files sent from a directory *)
(* ===================================================================== *)

(** The exceptions the retrieval path can see. *)
Inductive exn : Type :=
  | NotFound
  | OSError (errno : Z).

Inductive result (A : Type) : Type :=
  | Ok (a : A)
  | Raise (e : exn).
Arguments Ok {A} a.
Arguments Raise {A} e.

Module Werkzeug.

(** [unicodedata.normalize("NFKD", c).encode("ascii", "ignore")] for one
    code point: ASCII is kept, a Latin-1 letter keeps its base letter, a
    vulgar fraction its digits, a spacing accent its space; the rest is
    dropped. *)
Definition ascii_fold (c : ascii) : string :=
  let o := Py.ord c in
  if N.ltb o 128 then String c ""
  else if (N.eqb o 160 || N.eqb o 168 || N.eqb o 175 || N.eqb o 180
           || N.eqb o 184)%bool then " "
  else if N.eqb o 170 then "a"
  else if N.eqb o 178 then "2"
  else if N.eqb o 179 then "3"
  else if N.eqb o 185 then "1"
  else if N.eqb o 186 then "o"
  else if N.eqb o 188 then "14"
  else if N.eqb o 189 then "12"
  else if N.eqb o 190 then "34"
  else if Py.between 192 197 c then "A"
  else if N.eqb o 199 then "C"
  else if Py.between 200 203 c then "E"
  else if Py.between 204 207 c then "I"
  else if N.eqb o 209 then "N"
  else if Py.between 210 214 c then "O"
  else if Py.between 217 220 c then "U"
  else if N.eqb o 221 then "Y"
  else if Py.between 224 229 c then "a"
  else if N.eqb o 231 then "c"
  else if Py.between 232 235 c then "e"
  else if Py.between 236 239 c then "i"
  else if N.eqb o 241 then "n"
  else if Py.between 242 246 c then "o"
  else if Py.between 249 252 c then "u"
  else if (N.eqb o 253 || N.eqb o 255)%bool then "y"
  else "".

Fixpoint to_ascii (s : string) : string :=
  match s with
  | EmptyString => EmptyString
  | String c r => ascii_fold c +:+ to_ascii r
  end.

(** The complement of [_filename_ascii_strip_re = [^A-Za-z0-9_.-]]. *)
Definition filename_char (c : ascii) : bool :=
  (Py.between 65 90 c || Py.between 97 122 c || Py.between 48 57 c
   || Py.contains c "_.-")%bool.

(** [secure_filename] on POSIX: fold to ASCII, turn [os.sep] into a
    space, join the words with "_", drop what the expression above
    matches, strip "." and "_" from both ends. *)
Definition secure_filename (filename : string) : string :=
  let filename := to_ascii filename in
  let filename := Py.replace_char "/" " " filename in
  Py.strip (fun c => Py.contains c "._")
    (Py.filter filename_char (Py.join "_" (Py.split filename))).

(** [safe_join(directory, filename)] on POSIX (no alternative
    separators); [None] is the refusal. *)
Definition safe_join (directory filename : string) : option string :=
  let directory := if Py.nonempty directory then directory else "." in
  let filename :=
    if Py.nonempty filename then Posixpath.normpath filename else filename in
  if (Posixpath.isabs filename
      || Py.startswith "/" filename
      || String.eqb filename ".."
      || Py.startswith "../" filename)%bool
  then None
  else Some (Posixpath.join directory filename).

(** [werkzeug.utils.send_from_directory(directory, path, **kwargs)] for
    a plain GET by a process whose working directory is [cwd]: the safe
    join, then the [_root_path] keyword, if given, joined in front; the
    result must name a regular file of [fs] ([os.path.isfile]); [io] is
    the error, if any, that the operating system raises when that file
    is opened.  ([send_file] puts [_root_path] in front once more, which
    changes nothing for the absolute path that Flask passes.) *)
Definition send_from_directory (fs : gmap string (list byte))
    (io : option exn) (cwd : string) (_root_path : option string)
    (directory path : string) : result (list byte) :=
  match safe_join directory path with
  | None => Raise NotFound
  | Some path_str =>
      let path_str :=
        match _root_path with
        | Some root => Posixpath.join root path_str
        | None => path_str
        end in
      match fs !! os_resolve cwd path_str with
      | None => Raise NotFound
      | Some data =>
          match io with
          | Some e => Raise e
          | None => Ok data
          end
      end
  end.

End Werkzeug.

(* ===================================================================== *)
(** ** [uuid] *)
(* ===================================================================== *)

Module Uuid.

(** [int.from_bytes(bs, "big")]. *)
Definition int_from_bytes (bs : list byte) : Z :=
  fold_left (fun acc b => acc * 256 + Z.of_N (Byte.to_N b)) bs 0.

(** [UUID(bytes=bs, version=4).int]: the variant and version bits are
    forced. *)
Definition uuid4_int (bs : list byte) : Z :=
  let int := int_from_bytes bs in
  let int := Z.land int (Z.lnot (Z.shiftl 0xc000 48)) in
  let int := Z.lor int (Z.shiftl 0x8000 48) in
  let int := Z.land int (Z.lnot (Z.shiftl 0xf000 64)) in
  Z.lor int (Z.shiftl 4 76).

Definition hexdigit (d : Z) : ascii :=
  nth (Z.to_nat d) (list_ascii_of_string "0123456789abcdef") "0"%char.

(** The digits of [n] in base 16, most significant first, in front of
    [acc]. *)
Fixpoint hex_go (fuel : nat) (n : Z) (acc : string) : string :=
  match fuel with
  | O => acc
  | S fuel' =>
      let acc' := String (hexdigit (n mod 16)) acc in
      if (n / 16 =? 0)%Z then acc' else hex_go fuel' (n / 16) acc'
  end.

(** ['%x' % n] for [0 <= n]. *)
Definition format_x (n : Z) : string :=
  hex_go (S (Z.to_nat (Z.log2 n))) n "".

Fixpoint zeros (k : nat) : string :=
  match k with
  | O => EmptyString
  | S k' => String "0" (zeros k')
  end.

(** ['%032x' % n]. *)
Definition format_032x (n : Z) : string :=
  let digits := format_x n in
  zeros (32 - String.length digits) +:+ digits.

(** [os.urandom(n)] read off the entropy source. *)
Definition os_urandom (source : nat -> byte) (n : nat) : list byte :=
  map source (seq 0 n).

(** [uuid.uuid4().hex]. *)
Definition uuid4_hex (source : nat -> byte) : string :=
  format_032x (uuid4_int (os_urandom source 16)).

End Uuid.

(* ===================================================================== *)
(** ** [app.py] *)
(* ===================================================================== *)

(** The configuration of a running application: the two module-level
    constants in which the deployments differ, [app.root_path] (the
    directory of the file that creates [Flask(__name__)]) and the working
    directory of the process. *)
Record Config : Type := {
  FULL_VALID_TOKEN : string;
  UPLOAD_FOLDER : string;
  root_path : string;
  cwd : string
}.

(** [src/app.py]. *)
Module Koyeb.
Definition VALID_API_KEY_PREFIX : string := "kaiiddo-ith".
Definition FULL_VALID_TOKEN : string :=
  VALID_API_KEY_PREFIX +:+ "-8b7c4a1e9f2d6g3h5j0k9l8m7n6p5q4r".
Definition UPLOAD_FOLDER : string := "uploaded_files".
(** The application whose [app.py] lies in [root_path], run by a process
    whose working directory is [cwd]. *)
Definition config_at (root_path cwd : string) : Config :=
  Build_Config FULL_VALID_TOKEN UPLOAD_FOLDER root_path cwd.
(** Started from the directory of [app.py]. *)
Definition config : Config := config_at "/app" "/app".
End Koyeb.

(** [src/api/app.py]. *)
Module Vercel.
Definition VALID_API_KEY_PREFIX : string := "kaiiddo-ituw".
Definition FULL_VALID_TOKEN : string :=
  VALID_API_KEY_PREFIX +:+ "-8b7c4a1e9f2d6g3h5j0k9l8m7n6p5q4r".
Definition UPLOAD_FOLDER : string := "/tmp/uploaded_files".
Definition config_at (root_path cwd : string) : Config :=
  Build_Config FULL_VALID_TOKEN UPLOAD_FOLDER root_path cwd.
(** The function bundle: [api/app.py] below the task root. *)
Definition config : Config := config_at "/var/task/api" "/var/task".
End Vercel.

(** [flask.send_from_directory]: werkzeug's, with [current_app.root_path]
    as [_root_path]. *)
Module Flask.
Definition send_from_directory (cfg : Config) (fs : gmap string (list byte))
    (io : option exn) (directory path : string) : result (list byte) :=
  Werkzeug.send_from_directory fs io (cwd cfg) (Some (root_path cfg))
    directory path.
End Flask.

(** A [werkzeug.datastructures.FileStorage]. *)
Record FileStorage : Type := {
  filename : string;
  stream : list byte;
  content_length : Z
}.

(** What the upload handler reads of the request: the [Authorization]
    header, the multipart file fields in order, and [request.url_root]. *)
Record Request : Type := {
  authorization : option string;
  files : list (string * FileStorage);
  url_root : string
}.

(** What the upload handler reads of its environment. *)
Record Env : Type := {
  urandom : nat -> byte;
  now_isoformat : string
}.

(** Response bodies: the two JSON shapes of [jsonify], a file, a page. *)
Inductive Body : Type :=
  | ErrorJson (ok : bool) (errorCode : Z) (errorMessage : string)
  | UploadJson (ok : bool) (sharedLink fileName : string) (fileSize : Z)
      (uploadDate : string)
  | FileContent (data : list byte)
  | Html (text : string).

(** A view's return value: a body with its status, or [None] when the
    function falls off its end. *)
Definition Response : Type := option (Body * Z).

(** ['file' in request.files] and [request.files['file']]: the first
    field of that name. *)
Fixpoint files_get (name : string) (fields : list (string * FileStorage))
    : option FileStorage :=
  match fields with
  | [] => None
  | (k, f) :: rest => if String.eqb k name then Some f else files_get name rest
  end.

(** [bool(file)] is [bool(file.filename)]. *)
Definition file_truthy (f : FileStorage) : bool := Py.nonempty (filename f).

(** [f"{unique_id}-{filename}"], in both handlers. *)
Definition storage_filename (unique_id name : string) : string :=
  unique_id +:+ "-" +:+ name.

(** [uuid.uuid4().hex[:12]]. *)
Definition unique_id (env : Env) : string :=
  Py.take 12 (Uuid.uuid4_hex (urandom env)).

(** Step 1 of [api_upload_file]: [None] when the request may proceed,
    otherwise the error response. *)
Definition authenticate (cfg : Config) (auth_header : option string)
    : option (Body * Z) :=
  if negb (Py.truthy auth_header) then
    Some (ErrorJson false 401
            "Authentication required. Missing Authorization header.", 401)
  else
    match Py.split (default "" auth_header) with
    | [scheme; token] =>
        if (negb (String.eqb (Py.lower scheme) "bearer")
            || negb (String.eqb token (FULL_VALID_TOKEN cfg)))%bool
        then
          Some (ErrorJson false 403
                  ("Invalid Bearer Token. Token must match: "
                   +:+ FULL_VALID_TOKEN cfg), 403)
        else None
    | _ =>
        Some (ErrorJson false 401
                "Invalid Authorization header format. Must be 'Bearer [token]'.",
              401)
    end.

(** [api_upload_file]: the response and the file system it leaves. *)
Definition api_upload_file (cfg : Config) (env : Env) (request : Request)
    (fs : gmap string (list byte)) : Response * gmap string (list byte) :=
  match authenticate cfg (authorization request) with
  | Some denied => (Some denied, fs)
  | None =>
      match files_get "file" (files request) with
      | None =>
          (Some (ErrorJson false 400 "No file part in the request body.", 400), fs)
      | Some file =>
          if String.eqb (filename file) "" then
            (Some (ErrorJson false 400 "No selected file for upload.", 400), fs)
          else if file_truthy file then
            let name := Werkzeug.secure_filename (filename file) in
            let unique_id := unique_id env in
            let storage_filename := storage_filename unique_id name in
            let path := Posixpath.join (UPLOAD_FOLDER cfg) storage_filename in
            let fs' := <[os_resolve (cwd cfg) path := stream file]> fs in
            let mock_shared_link :=
              url_root request +:+ "share/" +:+ unique_id +:+ "/" +:+ name in
            (Some (UploadJson true mock_shared_link name (content_length file)
                     (now_isoformat env), 200), fs')
          else (None, fs)
      end
  end.

(** The page of the [except Exception] branch. *)
Definition not_found_page (file_id name : string) : string :=
  "<h1>404 Not Found</h1><p>The file associated with ID <code>" +:+ file_id
  +:+ "</code> and filename <code>" +:+ name
  +:+ "</code> could not be located on the Kaiiddo Cloud server.</p>".

(** [serve_shared_file]: every exception of [send_from_directory] ends in
    the 404 page. *)
Definition serve_shared_file (cfg : Config) (fs : gmap string (list byte))
    (io : option exn) (file_id name : string) : Response :=
  match Flask.send_from_directory cfg fs io (UPLOAD_FOLDER cfg)
          (storage_filename file_id name) with
  | Ok data => Some (FileContent data, 200)
  | Raise _ => Some (Html (not_found_page file_id name), 404)
  end.

(* ===================================================================== *)
(** ** Vocabulary of the statements *)
(* ===================================================================== *)

(** The file that [file.save(os.path.join(UPLOAD_FOLDER, leaf))] creates. *)
Definition written_path (cfg : Config) (leaf : string) : string :=
  os_resolve (cwd cfg) (Posixpath.join (UPLOAD_FOLDER cfg) leaf).

(** The file that [send_from_directory(UPLOAD_FOLDER, leaf)] opens, when
    the safe join is the plain join. *)
Definition served_path (cfg : Config) (leaf : string) : string :=
  os_resolve (cwd cfg)
    (Posixpath.join (root_path cfg) (Posixpath.join (UPLOAD_FOLDER cfg) leaf)).

(** The separator that [os.path.join] puts after a directory. *)
Definition sep_after (a : string) : string :=
  if (negb (Py.nonempty a) || Py.endswith_char "/" a)%bool then "" else "/".

(** The upload folder as the upload handler sees it. *)
Definition storage_directory (cfg : Config) : string :=
  os_resolve (cwd cfg) (UPLOAD_FOLDER cfg).

(** The share view looks where the upload handler writes: the folder is
    absolute, or the process runs in the directory of [app.py]. *)
Definition same_directory (cfg : Config) : bool :=
  (Posixpath.isabs (UPLOAD_FOLDER cfg)
   || (String.eqb (root_path cfg) (cwd cfg) && Posixpath.isabs (root_path cfg)))%bool.

(** The digits of a lower-case hexadecimal numeral. *)
Definition lower_hex (c : ascii) : bool :=
  (Py.between 48 57 c || Py.between 97 102 c)%bool.

Definition hex_digit_value (c : ascii) : Z :=
  if Py.between 48 57 c then Z.of_N (Py.ord c) - 48
  else Z.of_N (Py.ord c) - 87.

(** The number a hexadecimal numeral denotes, read after the prefix [a]. *)
Fixpoint hex_value (a : Z) (s : string) : Z :=
  match s with
  | EmptyString => a
  | String c r => hex_value (a * 16 + hex_digit_value c) r
  end.

(** A string with no "/" in it, as the segments [<file_id>] and
    [<filename>] of the rule of [serve_shared_file] are. *)
Definition slash_free (s : string) : bool := negb (Py.contains "/" s).

(** What the default converter of a URL rule accepts: one character or
    more, none of them "/". *)
Definition url_segment (s : string) : bool :=
  (Py.nonempty s && slash_free s)%bool.

(** A non-empty string with no white space in it. *)
Definition one_word (s : string) : bool :=
  (Py.nonempty s && Py.all (fun c => negb (Py.isspace c)) s)%bool.

(** The status of a response. *)
Definition status_of (r : Response) : option Z := snd <$> r.

(* ===================================================================== *)
(** ** Sample requests *)
(* ===================================================================== *)

Module Sample.

Definition env : Env :=
  {| urandom := fun i => if Nat.even i then xa7 else x3c;
     now_isoformat := "2025-11-22T12:05:00.000000" |}.

Definition hello_txt : FileStorage :=
  {| filename := "hello.txt"; stream := [x68; x69]; content_length := 0 |}.

Definition dots : FileStorage :=
  {| filename := "../.."; stream := [x68; x69]; content_length := 0 |}.

Definition passwd : FileStorage :=
  {| filename := "../../etc/passwd"; stream := [x78]; content_length := 0 |}.

Definition bearer : string := "Bearer " +:+ Koyeb.FULL_VALID_TOKEN.

Definition upload (auth : option string) (fields : list (string * FileStorage))
    : Request :=
  {| authorization := auth; files := fields;
     url_root := "http://localhost:8000/" |}.

End Sample.

(* ===================================================================== *)
(** ** [app.py]: the other views and the URL rule of the share view *)
(* ===================================================================== *)

(** What [jsonify] serialises: the values of a Python literal. *)
#[local] Unset Elimination Schemes.
Inductive Json : Type :=
  | JBool (b : bool)
  | JNum (n : Z)
  | JStr (s : string)
  | JArr (items : list Json)
  | JObj (fields : list (string * Json)).
#[local] Set Elimination Schemes.

(** [d[key]] on the fields of an object, [None] for a missing key. *)
Fixpoint fields_get (key : string) (fields : list (string * Json)) : option Json :=
  match fields with
  | [] => None
  | (k, v) :: rest => if String.eqb k key then Some v else fields_get key rest
  end.

Definition json_get (key : string) (j : Json) : option Json :=
  match j with
  | JObj fields => fields_get key fields
  | _ => None
  end.

(** The last entry of [docs_content], the one text the two files word
    differently. *)
Definition docs_notes_persistent : string :=
  "Files are permanently hosted by the Flask server in the UPLOAD_FOLDER and accessible via the provided sharedLink (/share/ route).".

Definition docs_notes_temporary : string :=
  "Files are temporarily hosted for demo purposes. In production, connect to persistent cloud storage.".

(** [serve_api_docs_json]: the document handed to [jsonify]. *)
Definition serve_api_docs_json (cfg : Config) (notes : string) : Json :=
  JObj [
    ("apiName", JStr "Kaiiddo Cloud File Hosting API");
    ("version", JStr "1.0");
    ("authentication", JObj [
       ("method", JStr "Bearer Token");
       ("requiredToken", JStr (FULL_VALID_TOKEN cfg));
       ("headerExample", JStr ("Authorization: Bearer " +:+ FULL_VALID_TOKEN cfg))
     ]);
    ("endpoints", JArr [
       JObj [
         ("path", JStr "/api/upload");
         ("method", JStr "POST");
         ("description",
          JStr "Upload a file to the Kaiiddo Cloud. Requires authentication and a file.");
         ("requestBody", JObj [
            ("contentType", JStr "multipart/form-data");
            ("fields", JArr [
               JObj [("name", JStr "file"); ("type", JStr "file");
                     ("required", JBool true);
                     ("notes", JStr "The file to be uploaded.")]
             ])
          ]);
         ("successResponse", JObj [
            ("ok", JBool true);
            ("sharedLink", JStr "https://<your-domain>/share/<unique_id>/<filename>");
            ("fileName", JStr "example.jpg");
            ("fileSize", JStr "1048576");
            ("uploadDate", JStr "2025-11-22T12:05:00.000Z")
          ]);
         ("errorResponses", JArr [
            JObj [("errorCode", JNum 401);
                  ("errorMessage",
                   JStr "Authentication required. Missing Authorization header.")];
            JObj [("errorCode", JNum 403);
                  ("errorMessage", JStr "Invalid Bearer Token.")];
            JObj [("errorCode", JNum 400);
                  ("errorMessage", JStr "No file part in the request body.")]
          ])
       ]
     ]);
    ("notes", JStr notes)
  ].

(** The [errorCode]s a documented endpoint lists. *)
Definition documented_error_codes (endpoint : Json) : list Z :=
  match json_get "errorResponses" endpoint with
  | Some (JArr items) =>
      flat_map (fun item => match json_get "errorCode" item with
                            | Some (JNum n) => [n]
                            | _ => []
                            end) items
  | _ => []
  end.

(** The [errorMessage]s a documented endpoint lists. *)
Definition documented_error_messages (endpoint : Json) : list string :=
  match json_get "errorResponses" endpoint with
  | Some (JArr items) =>
      flat_map (fun item => match json_get "errorMessage" item with
                            | Some (JStr m) => [m]
                            | _ => []
                            end) items
  | _ => []
  end.

(** The endpoints of the document. *)
Definition documented_endpoints (docs : Json) : list Json :=
  match json_get "endpoints" docs with
  | Some (JArr items) => items
  | _ => []
  end.


(** The rule ['/share/<file_id>/<filename>'] on a URL path: both
    variables use the default converter, one character or more and no
    "/".  [None]: the rule does not match the path as it stands. *)
Definition match_share_rule (path : string) : option (string * string) :=
  match Py.split_on "/" path with
  | [root; share; file_id; name] =>
      if (String.eqb root "" && String.eqb share "share"
          && Py.nonempty file_id && Py.nonempty name)%bool
      then Some (file_id, name)
      else None
  | _ => None
  end.

(** [s[n:]]. *)
Fixpoint drop (n : nat) (s : string) : string :=
  match n, s with
  | O, _ => s
  | _, EmptyString => EmptyString
  | S k, String _ r => drop k r
  end.

(** [bytes.hex()]: two lower-case digits for each byte. *)
Definition hex_byte (b : byte) : string :=
  let n := Z.of_N (Byte.to_N b) in
  String (Uuid.hexdigit (n / 16)) (String (Uuid.hexdigit (n mod 16)) EmptyString).

Fixpoint bytes_hex (bs : list byte) : string :=
  match bs with
  | [] => EmptyString
  | b :: rest => hex_byte b +:+ bytes_hex rest
  end.

(** A second environment, with other random bytes and a later clock. *)
Definition later_env : Env :=
  {| urandom := fun i => if Nat.even i then x5b else xe0;
     now_isoformat := "2025-11-22T12:06:30.000000" |}.


(** The characters that survive in a sanitised name wherever they
    stand: letters, digits and "-". *)
Definition name_char (c : ascii) : bool :=
  (Py.between 65 90 c || Py.between 97 122 c || Py.between 48 57 c
   || Ascii.eqb c "-")%bool.

(** A path component [normpath] keeps as it is: not empty, not ".", not
    "..", and free of "/". *)
Definition ordinary_component (c : string) : bool :=
  (Py.nonempty c && negb (String.eqb c ".") && negb (String.eqb c "..")
   && slash_free c)%bool.

(** The stack of [normpath], last component first: ordinary components
    on top of the ".." that could not be cancelled, and no ".." at all
    when the path is absolute. *)
Definition normpath_stack_ok (initial_slashes : nat) (stack : list string) : Prop :=
  exists ords dds,
    stack = (ords ++ dds)%list
    /\ Forall (fun c => ordinary_component c = true) ords
    /\ Forall (fun c => c = "..") dds
    /\ (initial_slashes <> 0%nat -> dds = []).

(* ===================================================================== *)
(** * Properties *)
(* ===================================================================== *)

(** ** The library routines on known inputs *)

Example split_bearer : Py.split "  Bearer   abc " = ["Bearer"; "abc"].
Proof. reflexivity. Qed.

Example split_tab_nbsp :
  Py.split (String (Py.chr 9) ("a" +:+ String (Py.chr 160) "b")) = ["a"; "b"].
Proof. reflexivity. Qed.

Example split_on_slash : Py.split_on "/" "a//b/" = ["a"; ""; "b"; ""].
Proof. reflexivity. Qed.

Example lower_mixed : Py.lower "BeArEr" = "bearer".
Proof. reflexivity. Qed.

Example isspace_table :
  map Py.ord (list_ascii_of_string (Py.filter Py.isspace (Py.code_points 0 256)))
  = [9; 10; 11; 12; 13; 28; 29; 30; 31; 32; 133; 160]%N.
Proof. vm_compute. reflexivity. Qed.

Example lower_table :
  Py.lower (Py.code_points 65 26) = "abcdefghijklmnopqrstuvwxyz"
  /\ Py.filter (fun c => negb (Ascii.eqb (Py.lower_char c) c)) (Py.code_points 0 256)
     = Py.code_points 65 26 +:+ Py.code_points 192 23 +:+ Py.code_points 216 7.
Proof. split; vm_compute; reflexivity. Qed.

Example to_ascii_table :
  Werkzeug.to_ascii (Py.code_points 128 128)
  = "  a 23  1o141234AAAAAACEEEEIIIINOOOOOUUUUYaaaaaaceeeeiiiinooooouuuuyy".
Proof. vm_compute. reflexivity. Qed.

Example normpath_dots : Posixpath.normpath "a/./b/../../c//d/" = "c/d".
Proof. reflexivity. Qed.

Example normpath_two_slashes : Posixpath.normpath "//a/../.." = "//".
Proof. reflexivity. Qed.

Example normpath_up : Posixpath.normpath "../a/.." = "..".
Proof. reflexivity. Qed.

Example join_folder : Posixpath.join "uploaded_files" "a" = "uploaded_files/a".
Proof. reflexivity. Qed.

Example safe_join_refuses_up :
  Werkzeug.safe_join "uploaded_files" "x/../../etc/passwd" = None.
Proof. reflexivity. Qed.

Example secure_filename_traversal :
  Werkzeug.secure_filename "../../etc/passwd" = "etc_passwd".
Proof. reflexivity. Qed.

Example secure_filename_spaces :
  Werkzeug.secure_filename "My cool movie.mov" = "My_cool_movie.mov".
Proof. reflexivity. Qed.

Example secure_filename_latin1 :
  Werkzeug.secure_filename (String (Py.chr 233) "t" +:+ String (Py.chr 188) ".txt")
  = "et14.txt".
Proof. reflexivity. Qed.

Example secure_filename_umlauts :
  Werkzeug.secure_filename
    ("i contain cool " +:+ String (Py.chr 252) "ml" +:+ String (Py.chr 228) "uts.txt")
  = "i_contain_cool_umlauts.txt".
Proof. reflexivity. Qed.

Example secure_filename_hidden : Werkzeug.secure_filename ".bashrc" = "bashrc".
Proof. reflexivity. Qed.

Example secure_filename_dunder : Werkzeug.secure_filename "__init__.py" = "init__.py".
Proof. reflexivity. Qed.

Example secure_filename_white_space :
  Werkzeug.secure_filename
    (" a" +:+ String (Py.chr 9) "b" +:+ String (Py.chr 28) ".c_ ")
  = "a_b_.c".
Proof. reflexivity. Qed.

Example secure_filename_dots : Werkzeug.secure_filename "../.." = "".
Proof. reflexivity. Qed.

Example format_032x_255 : Uuid.format_032x 255 = "000000000000000000000000000000ff".
Proof. reflexivity. Qed.

Example uuid4_hex_all_ones :
  Uuid.uuid4_hex (fun _ => xff) = "ffffffffffff4fffbfffffffffffffff".
Proof. vm_compute. reflexivity. Qed.

Example unique_id_sample : unique_id Sample.env = "a73ca73ca73c".
Proof. vm_compute. reflexivity. Qed.

(** ** The handlers on the scenarios of the specification *)

Example post_without_header :
  fst (api_upload_file Koyeb.config Sample.env
         (Sample.upload None [("file", Sample.hello_txt)]) ∅)
  = Some (ErrorJson false 401
            "Authentication required. Missing Authorization header.", 401).
Proof. reflexivity. Qed.

Example post_wrong_token :
  status_of (fst (api_upload_file Koyeb.config Sample.env
                    (Sample.upload (Some "Bearer wrong-token")
                       [("file", Sample.hello_txt)]) ∅))
  = Some 403.
Proof. reflexivity. Qed.

Example post_hello_then_get :
  fst (api_upload_file Koyeb.config Sample.env
         (Sample.upload (Some Sample.bearer) [("file", Sample.hello_txt)]) ∅)
  = Some (UploadJson true "http://localhost:8000/share/a73ca73ca73c/hello.txt"
            "hello.txt" 0 "2025-11-22T12:05:00.000000", 200)
  /\ serve_shared_file Koyeb.config
       (snd (api_upload_file Koyeb.config Sample.env
               (Sample.upload (Some Sample.bearer) [("file", Sample.hello_txt)]) ∅))
       None "a73ca73ca73c" "hello.txt"
     = Some (FileContent [x68; x69], 200).
Proof. split; vm_compute; reflexivity. Qed.

(** ** Strings *)

Section PyFacts.

Variables p q : ascii -> bool.

Lemma all_app s t : Py.all p (s +:+ t) = (Py.all p s && Py.all p t)%bool.
Proof.
  induction s as [|c s IH]; simpl; [reflexivity|].
  rewrite IH. apply andb_assoc.
Qed.

Lemma all_filter s : Py.all p (Py.filter p s) = true.
Proof.
  induction s as [|c s IH]; simpl; [reflexivity|].
  destruct (p c) eqn:E; simpl; [rewrite E|]; exact IH.
Qed.

Lemma all_lstrip s : Py.all q s = true -> Py.all q (Py.lstrip p s) = true.
Proof.
  induction s as [|c s IH]; simpl; [reflexivity|].
  intros H. destruct (p c); [|exact H].
  apply andb_prop in H. tauto.
Qed.

Lemma all_rstrip s : Py.all q s = true -> Py.all q (Py.rstrip p s) = true.
Proof.
  induction s as [|c s IH]; simpl; [reflexivity|].
  intros H. apply andb_prop in H. destruct H as [Hc Hs].
  specialize (IH Hs). destruct (Py.rstrip p s).
  - destruct (p c); simpl; [reflexivity|]. now rewrite Hc.
  - simpl in *. now rewrite Hc, IH.
Qed.

Lemma all_strip s : Py.all q s = true -> Py.all q (Py.strip p s) = true.
Proof. intros H. unfold Py.strip. now apply all_rstrip, all_lstrip. Qed.

Lemma all_take n s : Py.all p s = true -> Py.all p (Py.take n s) = true.
Proof.
  revert s. induction n as [|n IH]; intros [|c s]; simpl; try reflexivity.
  intros H. apply andb_prop in H. destruct H as [Hc Hs].
  now rewrite Hc, IH.
Qed.

Lemma all_weaken s :
  (forall c, p c = true -> q c = true) -> Py.all p s = true -> Py.all q s = true.
Proof.
  intros Hpq. induction s as [|c s IH]; simpl; [reflexivity|].
  intros H. apply andb_prop in H. destruct H as [Hc Hs].
  now rewrite (Hpq _ Hc), IH.
Qed.

Lemma contains_all c s : p c = false -> Py.all p s = true -> Py.contains c s = false.
Proof.
  intros Hc. induction s as [|a s IH]; simpl; [reflexivity|].
  intros H. apply andb_prop in H. destruct H as [Ha Hs].
  rewrite (IH Hs), orb_false_r.
  destruct (Ascii.eqb_spec a c) as [->|]; [congruence | reflexivity].
Qed.

(** A string free of separators is one piece. *)
Lemma split_when_none s :
  Py.all (fun c => negb (p c)) s = true -> Py.split_when p s = [s].
Proof.
  induction s as [|c s IH]; simpl; [reflexivity|].
  intros H. apply andb_prop in H. destruct H as [Hc Hs].
  apply negb_true_iff in Hc. now rewrite Hc, (IH Hs).
Qed.

(** A separator after a separator-free word closes that word. *)
Lemma split_when_word w c s :
  Py.all (fun c => negb (p c)) w = true -> p c = true ->
  Py.split_when p (w +:+ String c s) = w :: Py.split_when p s.
Proof.
  intros Hw Hc. induction w as [|a w IH]; simpl.
  - now rewrite Hc.
  - simpl in Hw. apply andb_prop in Hw. destruct Hw as [Ha Hw].
    apply negb_true_iff in Ha. now rewrite Ha, (IH Hw).
Qed.

Lemma length_take n s : (n <= String.length s)%nat -> String.length (Py.take n s) = n.
Proof.
  revert s. induction n as [|n IH]; intros [|c s]; simpl; try reflexivity; try lia.
  intros H. f_equal. apply IH. lia.
Qed.

End PyFacts.

Lemma length_app s t :
  String.length (s +:+ t) = (String.length s + String.length t)%nat.
Proof. induction s as [|c s IH]; simpl; [reflexivity | now rewrite IH]. Qed.

Lemma contains_not c s :
  Py.contains c s = false -> Py.all (fun a => negb (Ascii.eqb c a)) s = true.
Proof.
  induction s as [|a s IH]; simpl; [reflexivity|].
  intros H. apply orb_false_elim in H. destruct H as [Ha Hs].
  rewrite (IH Hs), andb_true_r. rewrite Ascii.eqb_sym. now rewrite Ha.
Qed.

(** ** File names and identifiers *)

Lemma lower_hex_filename_char c : lower_hex c = true -> Werkzeug.filename_char c = true.
Proof.
  destruct c as [[] [] [] [] [] [] [] []]; vm_compute; congruence.
Qed.

Lemma filename_char_not_slash : Werkzeug.filename_char "/" = false.
Proof. reflexivity. Qed.

(** Whatever the client sends, the sanitised name is made of letters,
    digits, "_", "." and "-". *)
Lemma secure_filename_chars raw :
  Py.all Werkzeug.filename_char (Werkzeug.secure_filename raw) = true.
Proof.
  unfold Werkzeug.secure_filename. apply all_strip, all_filter.
Qed.

Lemma hexdigit_lower_hex d : lower_hex (Uuid.hexdigit d) = true.
Proof.
  unfold Uuid.hexdigit. generalize (Z.to_nat d). intros n.
  do 17 (destruct n as [|n]; [reflexivity|]). simpl. reflexivity.
Qed.

Lemma hex_go_lower_hex fuel : forall n acc,
  Py.all lower_hex acc = true -> Py.all lower_hex (Uuid.hex_go fuel n acc) = true.
Proof.
  induction fuel as [|fuel IH]; intros n acc Hacc; simpl; [exact Hacc|].
  assert (Py.all lower_hex (String (Uuid.hexdigit (n mod 16)) acc) = true) as H.
  { simpl. now rewrite hexdigit_lower_hex, Hacc. }
  destruct (n / 16 =? 0)%Z; [exact H | now apply IH].
Qed.

Lemma zeros_lower_hex k : Py.all lower_hex (Uuid.zeros k) = true.
Proof. induction k as [|k IH]; simpl; [reflexivity | exact IH]. Qed.

Lemma length_zeros k : String.length (Uuid.zeros k) = k.
Proof. induction k as [|k IH]; simpl; [reflexivity | now rewrite IH]. Qed.

Lemma format_032x_lower_hex n : Py.all lower_hex (Uuid.format_032x n) = true.
Proof.
  unfold Uuid.format_032x, Uuid.format_x. rewrite all_app, zeros_lower_hex.
  rewrite andb_true_l. now apply hex_go_lower_hex.
Qed.

Lemma format_032x_length n : (32 <= String.length (Uuid.format_032x n))%nat.
Proof.
  unfold Uuid.format_032x. rewrite length_app, length_zeros. lia.
Qed.

Lemma unique_id_length env : String.length (unique_id env) = 12%nat.
Proof.
  unfold unique_id, Uuid.uuid4_hex. apply length_take.
  pose proof (format_032x_length (Uuid.uuid4_int (Uuid.os_urandom (urandom env) 16))).
  lia.
Qed.

Lemma unique_id_lower_hex env : Py.all lower_hex (unique_id env) = true.
Proof.
  unfold unique_id, Uuid.uuid4_hex. apply all_take, format_032x_lower_hex.
Qed.

Lemma app_cons c s t : String c s +:+ t = String c (s +:+ t).
Proof. reflexivity. Qed.

Lemma app_empty_r s : s +:+ "" = s.
Proof. induction s as [|c s IH]; [reflexivity | now rewrite app_cons, IH]. Qed.

Lemma app_assoc_cons s c t : (s +:+ String c "") +:+ t = s +:+ String c t.
Proof. induction s as [|a s IH]; [reflexivity | now rewrite !app_cons, IH]. Qed.

(** ** The numeral printed for the identifier is the one of the number *)

Lemma hex_value_app s : forall a t,
  hex_value a (s +:+ t) = hex_value (hex_value a s) t.
Proof. induction s as [|c s IH]; intros a t; simpl; [reflexivity | apply IH]. Qed.

Lemma hex_digit_value_hexdigit d :
  0 <= d < 16 -> hex_digit_value (Uuid.hexdigit d) = d.
Proof.
  intros Hd. rewrite <- (Z2Nat.id d) at 2 by lia.
  assert (Z.to_nat d < 16)%nat as Hn by lia.
  unfold Uuid.hexdigit. revert Hn. generalize (Z.to_nat d). intros n Hn.
  do 16 (destruct n as [|n]; [reflexivity|]). lia.
Qed.

Lemma hex_go_value fuel : forall n acc,
  0 <= n < 16 ^ Z.of_nat fuel ->
  exists d, Uuid.hex_go fuel n acc = d +:+ acc
            /\ forall a, hex_value a d = a * 16 ^ Z.of_nat (String.length d) + n.
Proof.
  induction fuel as [|fuel IH]; intros n acc Hn.
  - exists "". split; [reflexivity|]. intros a. simpl in *. lia.
  - rewrite Nat2Z.inj_succ, Z.pow_succ_r in Hn by lia. cbn [Uuid.hex_go].
    destruct (Z.eqb_spec (n / 16) 0) as [Hq|Hq].
    + exists (String (Uuid.hexdigit (n mod 16)) ""). split; [reflexivity|].
      intros a. simpl. rewrite hex_digit_value_hexdigit by (apply Z.mod_pos_bound; lia).
      pose proof (Z.div_mod n 16). lia.
    + destruct (IH (n / 16) (String (Uuid.hexdigit (n mod 16)) acc)) as (d & Hd & Hv).
      { split; [apply Z.div_pos; lia | apply Z.div_lt_upper_bound; lia]. }
      exists (d +:+ String (Uuid.hexdigit (n mod 16)) ""). split.
      * rewrite Hd. symmetry. apply app_assoc_cons.
      * intros a. rewrite hex_value_app, Hv. simpl.
        rewrite hex_digit_value_hexdigit by (apply Z.mod_pos_bound; lia).
        rewrite length_app. simpl String.length.
        rewrite Nat2Z.inj_add, Z.pow_add_r by lia. simpl (Z.of_nat 1).
        pose proof (Z.div_mod n 16). lia.
Qed.

(** The fuel of [format_x] is enough: the numeral denotes [n]. *)
Lemma format_x_value n : 0 <= n -> hex_value 0 (Uuid.format_x n) = n.
Proof.
  intros Hn. unfold Uuid.format_x.
  destruct (hex_go_value (S (Z.to_nat (Z.log2 n))) n "") as (d & Hd & Hv).
  - split; [exact Hn|]. rewrite Nat2Z.inj_succ, Z2Nat.id by apply Z.log2_nonneg.
    destruct (Z.eq_dec n 0) as [->|Hz]; [reflexivity|].
    apply Z.lt_le_trans with (2 ^ Z.succ (Z.log2 n)).
    + apply Z.log2_spec. lia.
    + apply Z.pow_le_mono_l. lia.
  - rewrite Hd. replace (d +:+ "") with d.
    + rewrite Hv. lia.
    + symmetry. apply app_empty_r.
Qed.

Lemma hex_value_zeros k : forall a, a = 0 -> hex_value a (Uuid.zeros k) = 0.
Proof. induction k as [|k IH]; intros a ->; simpl; [reflexivity | now apply IH]. Qed.

Lemma format_032x_value n : 0 <= n -> hex_value 0 (Uuid.format_032x n) = n.
Proof.
  intros Hn. unfold Uuid.format_032x.
  rewrite hex_value_app, hex_value_zeros by reflexivity. now apply format_x_value.
Qed.

Lemma int_from_bytes_nonneg bs : 0 <= Uuid.int_from_bytes bs.
Proof.
  unfold Uuid.int_from_bytes.
  assert (forall a, 0 <= a ->
    0 <= fold_left (fun acc b => acc * 256 + Z.of_N (Byte.to_N b)) bs a) as H.
  { induction bs as [|x bs IH]; intros a Ha; simpl; [exact Ha|].
    apply IH. lia. }
  apply H. lia.
Qed.

Lemma uuid4_int_nonneg bs : 0 <= Uuid.uuid4_int bs.
Proof.
  unfold Uuid.uuid4_int. pose proof (int_from_bytes_nonneg bs) as H.
  apply Z.lor_nonneg. split; [|vm_compute; congruence].
  apply Z.land_nonneg. left.
  apply Z.lor_nonneg. split; [|vm_compute; congruence].
  apply Z.land_nonneg. now left.
Qed.

(** The identifier is the first twelve digits of the numeral of the
    UUID's number. *)
Lemma uuid4_hex_value source :
  hex_value 0 (Uuid.uuid4_hex source)
  = Uuid.uuid4_int (Uuid.os_urandom source 16).
Proof. apply format_032x_value, uuid4_int_nonneg. Qed.

(** ** Storage keys and the paths they name *)

Lemma contains_app c s t :
  Py.contains c (s +:+ t) = (Py.contains c s || Py.contains c t)%bool.
Proof.
  induction s as [|a s IH]; [reflexivity|].
  rewrite app_cons. simpl. rewrite IH. apply orb_assoc.
Qed.

Lemma startswith_slash s : Py.contains "/" s = false -> Py.startswith "/" s = false.
Proof.
  destruct s as [|c s]; [reflexivity|]. cbn [Py.contains Py.startswith]. intros H.
  apply orb_false_elim in H. destruct H as [Hc _].
  rewrite Ascii.eqb_sym, Hc. reflexivity.
Qed.

Lemma startswith_dotdotslash s :
  Py.contains "/" s = false -> Py.startswith "../" s = false.
Proof.
  destruct s as [|a [|b [|c s]]]; cbn [Py.contains Py.startswith]; intros H;
    try (now rewrite ?andb_false_r).
  apply orb_false_elim in H. destruct H as [_ H].
  apply orb_false_elim in H. destruct H as [_ H].
  apply orb_false_elim in H. destruct H as [Hc _].
  rewrite (Ascii.eqb_sym _ c), Hc, !andb_false_r. reflexivity.
Qed.

Lemma slash_free_contains s : slash_free s = true -> Py.contains "/" s = false.
Proof. unfold slash_free. apply negb_true_iff. Qed.

(** A key with a "-" in it is none of the special components. *)
Lemma dashed_not_special s :
  Py.contains "-" s = true -> s <> "" /\ s <> "." /\ s <> "..".
Proof. intros H. repeat split; intros ->; discriminate. Qed.

Lemma storage_filename_dashed id name :
  Py.contains "-" (storage_filename id name) = true.
Proof.
  unfold storage_filename. rewrite contains_app, app_cons. simpl.
  apply orb_true_r.
Qed.

Lemma storage_filename_slash_free id name :
  slash_free id = true -> slash_free name = true ->
  slash_free (storage_filename id name) = true.
Proof.
  unfold slash_free, storage_filename. intros Hi Hn.
  apply negb_true_iff in Hi, Hn. apply negb_true_iff.
  rewrite contains_app, app_cons, Hi. simpl. exact Hn.
Qed.

(** [normpath] leaves a single ordinary component alone. *)
Lemma normpath_leaf s :
  Py.contains "/" s = false -> s <> "" -> s <> "." -> s <> ".." ->
  Posixpath.normpath s = s.
Proof.
  intros Hs H0 H1 H2. unfold Posixpath.normpath.
  apply String.eqb_neq in H0, H1, H2. rewrite H0, (startswith_slash _ Hs).
  unfold Py.split_on. rewrite (split_when_none _ _ (contains_not _ _ Hs)).
  cbn [fold_left]. unfold Posixpath.normpath_step. rewrite H0, H1, H2.
  simpl. destruct s; [discriminate | reflexivity].
Qed.

(** ** Paths: [os.path.join] and the working directory *)

Lemma nonempty_neq s : Py.nonempty s = true <-> s <> "".
Proof. destruct s; simpl; split; congruence. Qed.

Lemma nonempty_app_l s t : Py.nonempty s = true -> Py.nonempty (s +:+ t) = true.
Proof. destruct s; [discriminate | reflexivity]. Qed.

Lemma nonempty_app_r s t : Py.nonempty t = true -> Py.nonempty (s +:+ t) = true.
Proof. destruct s; [intros H; exact H | reflexivity]. Qed.

Lemma startswith_app s t : Py.startswith s (s +:+ t) = true.
Proof.
  induction s as [|c s IH]; [reflexivity|]. rewrite app_cons.
  cbn [Py.startswith]. now rewrite Ascii.eqb_refl, IH.
Qed.

Lemma startswith_slash_app s t :
  Py.nonempty s = true -> Py.startswith "/" (s +:+ t) = Py.startswith "/" s.
Proof. destruct s; [discriminate | reflexivity]. Qed.

Lemma endswith_char_app c s t :
  Py.nonempty t = true -> Py.endswith_char c (s +:+ t) = Py.endswith_char c t.
Proof.
  intros Ht. induction s as [|a s IH]; [reflexivity|].
  rewrite app_cons. pose proof (nonempty_app_r s t Ht) as Hst.
  cbn [Py.endswith_char]. destruct (s +:+ t); [discriminate Hst | exact IH].
Qed.

Lemma join_absolute a b : Py.startswith "/" b = true -> Posixpath.join a b = b.
Proof. intros H. unfold Posixpath.join. now rewrite H. Qed.

Lemma join_relative_sep a b :
  Py.startswith "/" b = false -> Posixpath.join a b = a +:+ sep_after a +:+ b.
Proof.
  intros H. unfold Posixpath.join, sep_after. rewrite H.
  destruct (negb (Py.nonempty a) || Py.endswith_char "/" a)%bool; reflexivity.
Qed.

Lemma sep_after_app a b :
  Py.nonempty b = true -> sep_after (a +:+ b) = sep_after b.
Proof.
  intros Hb. unfold sep_after.
  now rewrite (nonempty_app_r a b Hb), Hb, (endswith_char_app _ a b Hb).
Qed.

Lemma string_app_assoc s t u : (s +:+ t) +:+ u = s +:+ t +:+ u.
Proof. induction s as [|c s IH]; [reflexivity|]. now rewrite !app_cons, IH. Qed.

Lemma sep_after_idem a : sep_after (a +:+ sep_after a) = "".
Proof.
  destruct a as [|y a']; [reflexivity|].
  set (a := String y a'). unfold sep_after at 2.
  change (Py.nonempty a) with true. cbn [negb orb].
  destruct (Py.endswith_char "/" a) eqn:He.
  - rewrite app_empty_r. unfold sep_after. rewrite He. now rewrite orb_true_r.
  - unfold sep_after. rewrite (endswith_char_app "/" a "/" eq_refl).
    cbn [Py.endswith_char]. change (Ascii.eqb "/" "/") with true.
    now rewrite orb_true_r.
Qed.

(** Joining is associative as long as the last path is relative. *)
Lemma join_assoc a b c :
  Py.startswith "/" c = false ->
  Posixpath.join a (Posixpath.join b c)
  = Posixpath.join (Posixpath.join a b) c.
Proof.
  intros Hc. rewrite (join_relative_sep b c Hc), (join_relative_sep (Posixpath.join a b) c Hc).
  destruct b as [|x b'].
  - change ("" +:+ sep_after "" +:+ c) with c.
    rewrite (join_relative_sep a c Hc), (join_relative_sep a "" eq_refl).
    rewrite (app_empty_r (sep_after a)), sep_after_idem.
    change ("" +:+ c) with c. symmetry. apply string_app_assoc.
  - set (b := String x b') in *.
    assert (Hb : Py.nonempty b = true) by reflexivity.
    destruct (Py.startswith "/" b) eqn:Hs.
    + rewrite (join_absolute a b Hs).
      apply join_absolute. now rewrite (startswith_slash_app b _ Hb).
    + rewrite (join_relative_sep a b Hs).
      rewrite (join_relative_sep a (b +:+ sep_after b +:+ c)).
      * rewrite <- (string_app_assoc a (sep_after a) b).
        rewrite (sep_after_app (a +:+ sep_after a) b Hb).
        now rewrite !string_app_assoc.
      * now rewrite (startswith_slash_app b _ Hb).
Qed.

Lemma isabs_join a b :
  Posixpath.isabs a = true -> Posixpath.isabs (Posixpath.join a b) = true.
Proof.
  unfold Posixpath.isabs. intros Ha.
  destruct (Py.startswith "/" b) eqn:Hb.
  - now rewrite (join_absolute a b Hb).
  - rewrite (join_relative_sep a b Hb). rewrite startswith_slash_app; [exact Ha|].
    destruct a; [discriminate Ha | reflexivity].
Qed.

(** [os.path.join] onto one directory is injective on relative names. *)
Lemma join_inj a b1 b2 :
  Py.startswith "/" b1 = false -> Py.startswith "/" b2 = false ->
  Posixpath.join a b1 = Posixpath.join a b2 -> b1 = b2.
Proof.
  unfold Posixpath.join. intros -> ->.
  destruct (negb (Py.nonempty a) || Py.endswith_char "/" a)%bool; intros H.
  - exact (String.app_inj a _ _ H).
  - apply (String.app_inj a) in H. exact (String.app_inj "/" _ _ H).
Qed.

Lemma written_path_eq cfg leaf :
  written_path cfg leaf
  = os_resolve (cwd cfg) (Posixpath.join (UPLOAD_FOLDER cfg) leaf).
Proof. reflexivity. Qed.

Lemma served_path_eq cfg leaf :
  served_path cfg leaf
  = os_resolve (cwd cfg)
      (Posixpath.join (root_path cfg) (Posixpath.join (UPLOAD_FOLDER cfg) leaf)).
Proof. reflexivity. Qed.

(** The path an upload writes is the storage directory extended by the
    leaf. *)
Lemma written_path_join cfg leaf :
  Py.startswith "/" leaf = false ->
  written_path cfg leaf = Posixpath.join (storage_directory cfg) leaf.
Proof. intros H. unfold written_path, storage_directory, os_resolve. exact (join_assoc _ _ _ H). Qed.

Lemma written_path_inj cfg k1 k2 :
  Py.startswith "/" k1 = false -> Py.startswith "/" k2 = false ->
  written_path cfg k1 = written_path cfg k2 -> k1 = k2.
Proof.
  intros H1 H2. rewrite (written_path_join cfg k1 H1), (written_path_join cfg k2 H2).
  exact (join_inj _ _ _ H1 H2).
Qed.

(** Where the share view looks is where the upload handler writes, when
    the folder is absolute or the process runs in the directory of
    [app.py]. *)
Lemma served_path_written cfg leaf :
  same_directory cfg = true -> served_path cfg leaf = written_path cfg leaf.
Proof.
  unfold same_directory, served_path, written_path, os_resolve. intros H.
  apply orb_true_iff in H. destruct H as [H|H].
  - rewrite (join_absolute (root_path cfg)); [reflexivity|].
    exact (isabs_join _ leaf H).
  - apply andb_true_iff in H. destruct H as [He Ha].
    apply String.eqb_eq in He. rewrite <- He.
    apply join_absolute. exact (isabs_join _ _ Ha).
Qed.

(** [safe_join] accepts the key of two "/"-free segments and names the
    path that [os.path.join] names. *)
Lemma safe_join_storage directory id name :
  Py.nonempty directory = true ->
  slash_free id = true -> slash_free name = true ->
  Werkzeug.safe_join directory (storage_filename id name)
  = Some (Posixpath.join directory (storage_filename id name)).
Proof.
  intros Hd Hi Hn.
  pose proof (slash_free_contains _ (storage_filename_slash_free _ _ Hi Hn)) as Hk.
  destruct (dashed_not_special _ (storage_filename_dashed id name)) as (H0 & H1 & H2).
  unfold Werkzeug.safe_join. rewrite Hd.
  replace (Py.nonempty (storage_filename id name)) with true
    by (destruct (storage_filename id name); [contradiction | reflexivity]).
  rewrite (normpath_leaf _ Hk H0 H1 H2).
  unfold Posixpath.isabs. rewrite (startswith_slash _ Hk), (startswith_dotdotslash _ Hk).
  apply String.eqb_neq in H2. now rewrite H2.
Qed.

(** What [serve_shared_file] answers is decided by one entry of the file
    system, the one at [UPLOAD_FOLDER/<file_id>-<filename>] below
    [app.root_path]. *)
Lemma serve_shared_file_lookup cfg (fs : gmap string (list byte)) io file_id name :
  Py.nonempty (UPLOAD_FOLDER cfg) = true ->
  slash_free file_id = true -> slash_free name = true ->
  serve_shared_file cfg fs io file_id name
  = match fs !! served_path cfg (file_id +:+ "-" +:+ name), io with
    | Some data, None => Some (FileContent data, 200)
    | _, _ => Some (Html (not_found_page file_id name), 404)
    end.
Proof.
  intros Hd Hi Hn.
  unfold serve_shared_file, Flask.send_from_directory, Werkzeug.send_from_directory.
  rewrite (safe_join_storage _ _ _ Hd Hi Hn). unfold storage_filename, served_path.
  destruct (fs !! _); [destruct io|]; reflexivity.
Qed.

Lemma slash_free_of_filename_chars s :
  Py.all Werkzeug.filename_char s = true -> slash_free s = true.
Proof.
  intros H. unfold slash_free. apply negb_true_iff.
  exact (contains_all _ _ _ filename_char_not_slash H).
Qed.

Lemma unique_id_slash_free env : slash_free (unique_id env) = true.
Proof.
  apply slash_free_of_filename_chars.
  apply (all_weaken lower_hex); [exact lower_hex_filename_char | apply unique_id_lower_hex].
Qed.

Lemma secure_filename_slash_free raw :
  slash_free (Werkzeug.secure_filename raw) = true.
Proof. apply slash_free_of_filename_chars, secure_filename_chars. Qed.


Lemma secure_filename_url_segment raw :
  Werkzeug.secure_filename raw <> "" ->
  url_segment (Werkzeug.secure_filename raw) = true.
Proof.
  intros Hne. unfold url_segment. rewrite secure_filename_slash_free, andb_true_r.
  destruct (Werkzeug.secure_filename raw); [contradiction | reflexivity].
Qed.

Example empty_name_is_no_url_segment :
  url_segment (Werkzeug.secure_filename "../..") = false.
Proof. reflexivity. Qed.

(** ** The upload handler, case by case *)

(** Walks the early returns of [api_upload_file], closing each of them
    and the fall-through with [tac]; what is left is the storing branch,
    with the file in [file]. *)
Ltac upload_cases cfg request file tac :=
  unfold api_upload_file;
  destruct (authenticate cfg (authorization request)); [tac|];
  destruct (files_get "file" (files request)) as [file|]; [|tac];
  destruct (String.eqb (filename file) ""); [tac|];
  destruct (file_truthy file); [|tac].

(** An authenticated request with a named file is stored and answered
    with 200. *)
Lemma api_upload_file_stores cfg env request fs file :
  authenticate cfg (authorization request) = None ->
  files_get "file" (files request) = Some file ->
  filename file <> "" ->
  api_upload_file cfg env request fs
  = (Some (UploadJson true
             (url_root request +:+ "share/" +:+ unique_id env +:+ "/"
              +:+ Werkzeug.secure_filename (filename file))
             (Werkzeug.secure_filename (filename file))
             (content_length file) (now_isoformat env), 200),
     <[written_path cfg
         (storage_filename (unique_id env)
            (Werkzeug.secure_filename (filename file))) := stream file]> fs).
Proof.
  intros Ha Hf Hn. unfold api_upload_file, written_path. rewrite Ha, Hf.
  pose proof Hn as Hn'. apply String.eqb_neq in Hn. rewrite Hn.
  unfold file_truthy. apply nonempty_neq in Hn'. now rewrite Hn'.
Qed.

(** A 200 answer of the upload handler comes from that one branch. *)
Lemma api_upload_file_200 cfg env request fs body fs' :
  api_upload_file cfg env request fs = (Some (body, 200), fs') ->
  exists file,
    authenticate cfg (authorization request) = None
    /\ files_get "file" (files request) = Some file
    /\ filename file <> "".
Proof.
  unfold api_upload_file, authenticate.
  destruct (negb (Py.truthy (authorization request))); [discriminate|].
  destruct (Py.split (default "" (authorization request))) as [|scheme [|token [|]]];
    try discriminate.
  destruct (negb (Py.lower scheme =? "bearer")%string
            || negb (token =? FULL_VALID_TOKEN cfg)%string)%bool; [discriminate|].
  destruct (files_get "file" (files request)) as [file|]; [|discriminate].
  destruct (String.eqb_spec (filename file) "") as [|Hn]; [discriminate|].
  intros _. now exists file.
Qed.

(** What a successful upload returns and stores. *)
Lemma api_upload_file_200_inv cfg env request (fs fs' : gmap string (list byte))
    link name size date :
  api_upload_file cfg env request fs
  = (Some (UploadJson true link name size date, 200), fs') ->
  exists file,
    files_get "file" (files request) = Some file
    /\ filename file <> ""
    /\ name = Werkzeug.secure_filename (filename file)
    /\ link = url_root request +:+ "share/" +:+ unique_id env +:+ "/" +:+ name
    /\ fs' = <[written_path cfg (storage_filename (unique_id env) name)
               := stream file]> fs.
Proof.
  intros Hup.
  destruct (api_upload_file_200 _ _ _ _ _ _ Hup) as (file & Ha & Hf & Hn).
  rewrite (api_upload_file_stores _ _ _ _ _ Ha Hf Hn) in Hup.
  pose proof (f_equal snd Hup) as Hfs.
  pose proof (f_equal (fun r => match fst r with
                                | Some (UploadJson _ l _ _ _, _) => l
                                | _ => ""
                                end) Hup) as Hlink.
  pose proof (f_equal (fun r => match fst r with
                                | Some (UploadJson _ _ n _ _, _) => n
                                | _ => ""
                                end) Hup) as Hname.
  cbv beta iota delta [fst snd] in Hfs, Hlink, Hname. clear Hup.
  subst link name fs'.
  exists file. split; [exact Hf|]. split; [exact Hn|].
  split; [reflexivity|]. split; reflexivity.
Qed.

(** The share view on the file system an upload leaves, at the segments
    of the returned link: decided by whether it looks where the upload
    wrote. *)
Lemma serve_after_upload cfg (fs : gmap string (list byte)) id name data :
  Py.nonempty (UPLOAD_FOLDER cfg) = true ->
  slash_free id = true -> slash_free name = true ->
  (served_path cfg (storage_filename id name)
   = written_path cfg (storage_filename id name) ->
   serve_shared_file cfg
     (<[written_path cfg (storage_filename id name) := data]> fs) None id name
   = Some (FileContent data, 200))
  /\ (served_path cfg (storage_filename id name)
      <> written_path cfg (storage_filename id name) ->
      fs !! served_path cfg (storage_filename id name) = None ->
      serve_shared_file cfg
        (<[written_path cfg (storage_filename id name) := data]> fs) None id name
      = Some (Html (not_found_page id name), 404)).
Proof.
  intros Hd Hi Hn.
  rewrite (serve_shared_file_lookup _ _ _ _ _ Hd Hi Hn).
  change (id +:+ "-" +:+ name) with (storage_filename id name).
  split.
  - intros ->. rewrite lookup_insert_eq. reflexivity.
  - intros Hne Hnone. rewrite lookup_insert_ne by (intros H; apply Hne; symmetry; exact H).
    rewrite Hnone. reflexivity.
Qed.

(** [src/app.py] started from the parent of its directory: what is
    written and what is looked for. *)
Example misplaced_written_path :
  written_path (Koyeb.config_at "/repo/src" "/repo") "k" = "/repo/uploaded_files/k".
Proof. reflexivity. Qed.

Example misplaced_served_path :
  served_path (Koyeb.config_at "/repo/src" "/repo") "k" = "/repo/src/uploaded_files/k".
Proof. reflexivity. Qed.

Example misplaced_not_same_directory :
  same_directory (Koyeb.config_at "/repo/src" "/repo") = false.
Proof. reflexivity. Qed.

(** C1 (where the code departs from it): a process whose share view does
    not look where its upload handler writes, as [src/app.py] with its
    relative folder when it is started from another directory than its
    own.  The upload is answered 200 with the link, the payload is
    stored under the working directory, and the share handler called
    with the identifier and the name of that link answers 404. *)
Theorem upload_not_served_from_other_directory cfg env request
    (fs fs' : gmap string (list byte)) link name size date :
  Py.nonempty (UPLOAD_FOLDER cfg) = true ->
  api_upload_file cfg env request fs
  = (Some (UploadJson true link name size date, 200), fs') ->
  served_path cfg (storage_filename (unique_id env) name)
  <> written_path cfg (storage_filename (unique_id env) name) ->
  fs !! served_path cfg (storage_filename (unique_id env) name) = None ->
  exists file,
    files_get "file" (files request) = Some file
    /\ filename file <> ""
    /\ name = Werkzeug.secure_filename (filename file)
    /\ link = url_root request +:+ "share/" +:+ unique_id env +:+ "/" +:+ name
    /\ fs' !! written_path cfg (storage_filename (unique_id env) name)
       = Some (stream file)
    /\ serve_shared_file cfg fs' None (unique_id env) name
       = Some (Html (not_found_page (unique_id env) name), 404).
Proof.
  intros Hd Hup Hne Hnone.
  destruct (api_upload_file_200_inv _ _ _ _ _ _ _ _ _ Hup)
    as (file & Hf & Hn & Hname & Hlink & Hfs).
  exists file. split; [exact Hf|]. split; [exact Hn|].
  split; [exact Hname|]. split; [exact Hlink|].
  assert (Hs : slash_free name = true).
  { rewrite Hname. exact (secure_filename_slash_free (filename file)). }
  rewrite Hfs. split.
  - apply lookup_insert_eq.
  - exact (proj2 (serve_after_upload cfg fs _ _ (stream file) Hd
                    (unique_id_slash_free env) Hs) Hne Hnone).
Qed.

Lemma upload_not_served_from_other_directory_witness :
  exists file,
    files_get "file" [("file", Sample.hello_txt)] = Some file
    /\ filename file <> ""
    /\ "hello.txt" = Werkzeug.secure_filename (filename file)
    /\ "http://localhost:8000/" +:+ "share/" +:+ unique_id Sample.env +:+ "/"
       +:+ "hello.txt"
       = "http://localhost:8000/" +:+ "share/" +:+ unique_id Sample.env +:+ "/"
         +:+ "hello.txt"
    /\ (<[written_path (Koyeb.config_at "/repo/src" "/repo")
            (storage_filename (unique_id Sample.env) "hello.txt") := [x68; x69]]>
          (∅ : gmap string (list byte)))
       !! written_path (Koyeb.config_at "/repo/src" "/repo")
            (storage_filename (unique_id Sample.env) "hello.txt")
       = Some (stream file)
    /\ serve_shared_file (Koyeb.config_at "/repo/src" "/repo")
         (<[written_path (Koyeb.config_at "/repo/src" "/repo")
              (storage_filename (unique_id Sample.env) "hello.txt") := [x68; x69]]>
            (∅ : gmap string (list byte)))
         None (unique_id Sample.env) "hello.txt"
       = Some (Html (not_found_page (unique_id Sample.env) "hello.txt"), 404).
Proof.
  assert (api_upload_file (Koyeb.config_at "/repo/src" "/repo") Sample.env
            (Sample.upload (Some Sample.bearer) [("file", Sample.hello_txt)]) ∅
          = (Some (UploadJson true
                     ("http://localhost:8000/" +:+ "share/" +:+ unique_id Sample.env
                      +:+ "/" +:+ "hello.txt")
                     "hello.txt" 0 "2025-11-22T12:05:00.000000", 200),
             <[written_path (Koyeb.config_at "/repo/src" "/repo")
                 (storage_filename (unique_id Sample.env) "hello.txt") := [x68; x69]]>
               (∅ : gmap string (list byte)))) as Hup.
  { refine (api_upload_file_stores (Koyeb.config_at "/repo/src" "/repo") Sample.env
              (Sample.upload (Some Sample.bearer) [("file", Sample.hello_txt)])
              ∅ Sample.hello_txt eq_refl eq_refl _).
    discriminate. }
  refine (upload_not_served_from_other_directory
            (Koyeb.config_at "/repo/src" "/repo") Sample.env
            (Sample.upload (Some Sample.bearer) [("file", Sample.hello_txt)])
            ∅ _ _ _ _ _ eq_refl Hup _ _).
  - vm_compute. discriminate.
  - apply lookup_empty.
Defined.

(** ** Authentication *)

(** A header of two words is judged on its scheme and its token. *)
Lemma authenticate_two_words cfg v scheme token :
  Py.split v = [scheme; token] ->
  authenticate cfg (Some v)
  = if (negb (String.eqb (Py.lower scheme) "bearer")
        || negb (String.eqb token (FULL_VALID_TOKEN cfg)))%bool
    then Some (ErrorJson false 403
                 ("Invalid Bearer Token. Token must match: "
                  +:+ FULL_VALID_TOKEN cfg), 403)
    else None.
Proof.
  intros Hsplit. unfold authenticate.
  destruct v as [|c v]; [discriminate|].
  simpl negb. cbv iota. simpl default. now rewrite Hsplit.
Qed.

(** C2: a header that is absent or does not split into exactly two words
    is refused with 401; one that splits into two words whose scheme is
    not "bearer" up to case, or whose token is not the configured secret,
    is refused with 403; any other header lets the request proceed. *)
Theorem authenticate_classification cfg (header : option string) :
  ((header = None \/ exists v, header = Some v /\ length (Py.split v) <> 2%nat) ->
   exists message, authenticate cfg header = Some (ErrorJson false 401 message, 401))
  /\ (forall v scheme token,
        header = Some v -> Py.split v = [scheme; token] ->
        Py.lower scheme <> "bearer" \/ token <> FULL_VALID_TOKEN cfg ->
        exists message, authenticate cfg header = Some (ErrorJson false 403 message, 403))
  /\ (forall v scheme token,
        header = Some v -> Py.split v = [scheme; token] ->
        Py.lower scheme = "bearer" -> token = FULL_VALID_TOKEN cfg ->
        authenticate cfg header = None).
Proof.
  split; [|split].
  - intros [->|(v & -> & Hlen)]; unfold authenticate.
    + simpl. eauto.
    + destruct (negb (Py.truthy (Some v))); [eauto|].
      simpl default. destruct (Py.split v) as [|s [|t [|]]]; eauto.
      now elim Hlen.
  - intros v scheme token -> Hsplit Hbad.
    rewrite (authenticate_two_words _ _ _ _ Hsplit).
    destruct (String.eqb_spec (Py.lower scheme) "bearer") as [Hs|Hs];
      destruct (String.eqb_spec token (FULL_VALID_TOKEN cfg)) as [Ht|Ht];
      simpl; eauto.
    destruct Hbad; contradiction.
  - intros v scheme token -> Hsplit Hs Ht.
    rewrite (authenticate_two_words _ _ _ _ Hsplit).
    apply String.eqb_eq in Hs, Ht. now rewrite Hs, Ht.
Qed.

Lemma authenticate_classification_witness :
  (exists message,
     authenticate Koyeb.config (Some "Bearer") = Some (ErrorJson false 401 message, 401))
  /\ (exists message,
        authenticate Koyeb.config (Some "Bearer wrong-token")
        = Some (ErrorJson false 403 message, 403))
  /\ authenticate Koyeb.config (Some Sample.bearer) = None.
Proof.
  split; [|split].
  - apply (proj1 (authenticate_classification Koyeb.config (Some "Bearer"))).
    right. exists "Bearer". split; [reflexivity|]. vm_compute. congruence.
  - apply (proj1 (proj2 (authenticate_classification Koyeb.config
                           (Some "Bearer wrong-token")))
             "Bearer wrong-token" "Bearer" "wrong-token" eq_refl eq_refl).
    right. vm_compute. congruence.
  - exact (proj2 (proj2 (authenticate_classification Koyeb.config (Some Sample.bearer)))
             Sample.bearer "Bearer" Koyeb.FULL_VALID_TOKEN eq_refl eq_refl eq_refl eq_refl).
Defined.

Lemma split_bearer_word token :
  one_word token = true -> Py.split ("Bearer " +:+ token) = ["Bearer"; token].
Proof.
  unfold one_word. intros H. apply andb_prop in H. destruct H as [Hne Hw].
  unfold Py.split.
  change ("Bearer " +:+ token) with ("Bearer" +:+ String " " token).
  rewrite (split_when_word Py.isspace "Bearer" " " token eq_refl eq_refl).
  rewrite (split_when_none _ _ Hw). simpl. now rewrite Hne.
Qed.

Lemma deployed_tokens_one_word :
  one_word Koyeb.FULL_VALID_TOKEN = true /\ one_word Vercel.FULL_VALID_TOKEN = true.
Proof. split; reflexivity. Qed.

(** C3, as stated, fails: the scheme is compared after [lower()], so a
    header other than "Bearer " + secret is accepted. *)
Lemma only_exact_bearer_string_counterexample :
  "bearer " +:+ Koyeb.FULL_VALID_TOKEN <> "Bearer " +:+ Koyeb.FULL_VALID_TOKEN
  /\ authenticate Koyeb.config (Some ("bearer " +:+ Koyeb.FULL_VALID_TOKEN)) = None.
Proof. split; [vm_compute; congruence | reflexivity]. Qed.

(** C3, amended: the accepted headers are exactly those that split on
    white space into two words, the first equal to "bearer" once
    lower-cased and the second equal to the secret; every other header is
    refused with 401 or 403; and "Bearer " + secret is accepted whenever
    the secret is one non-empty word, as it is in both deployments. *)
Theorem authenticate_accepts_iff cfg (header : option string) :
  (authenticate cfg header = None <->
   exists v scheme,
     header = Some v /\ Py.split v = [scheme; FULL_VALID_TOKEN cfg]
     /\ Py.lower scheme = "bearer")
  /\ (authenticate cfg header = None
      \/ (exists message,
            authenticate cfg header = Some (ErrorJson false 401 message, 401))
      \/ (exists message,
            authenticate cfg header = Some (ErrorJson false 403 message, 403)))
  /\ (one_word (FULL_VALID_TOKEN cfg) = true ->
      authenticate cfg (Some ("Bearer " +:+ FULL_VALID_TOKEN cfg)) = None).
Proof.
  split; [|split].
  - split.
    + unfold authenticate. destruct header as [[|c v]|]; try discriminate.
      simpl negb. cbv iota. simpl default.
      destruct (Py.split (String c v)) as [|scheme [|token [|]]] eqn:Hsplit;
        try discriminate.
      destruct (String.eqb_spec (Py.lower scheme) "bearer") as [Hs|Hs];
        destruct (String.eqb_spec token (FULL_VALID_TOKEN cfg)) as [Ht|Ht];
        try discriminate.
      intros _. exists (String c v), scheme. now subst token.
    + intros (v & scheme & -> & Hsplit & Hs).
      rewrite (authenticate_two_words _ _ _ _ Hsplit).
      apply String.eqb_eq in Hs. now rewrite Hs, String.eqb_refl.
  - unfold authenticate. destruct (negb (Py.truthy header)); [eauto|].
    destruct (Py.split (default "" header)) as [|scheme [|token [|]]]; eauto.
    destruct (negb (Py.lower scheme =? "bearer")%string
              || negb (token =? FULL_VALID_TOKEN cfg)%string)%bool; eauto.
  - intros Hw.
    rewrite (authenticate_two_words _ _ _ _ (split_bearer_word _ Hw)).
    change (Py.lower "Bearer") with "bearer". rewrite !String.eqb_refl. reflexivity.
Qed.

Lemma authenticate_accepts_iff_witness :
  authenticate Vercel.config (Some ("Bearer " +:+ Vercel.FULL_VALID_TOKEN)) = None.
Proof.
  exact (proj2 (proj2 (authenticate_accepts_iff Vercel.config None)) eq_refl).
Defined.

(** ** Validation of the upload *)

(** C4: once authenticated, a request without a field named "file" is
    refused with 400 (no file part), one whose field has the empty file
    name is refused with 400 (no selected file), and every other request
    is answered with 200: there is no third validation failure. *)
Theorem upload_validation cfg env request fs :
  authenticate cfg (authorization request) = None ->
  (files_get "file" (files request) = None ->
   api_upload_file cfg env request fs
   = (Some (ErrorJson false 400 "No file part in the request body.", 400), fs))
  /\ (forall file,
        files_get "file" (files request) = Some file -> filename file = "" ->
        api_upload_file cfg env request fs
        = (Some (ErrorJson false 400 "No selected file for upload.", 400), fs))
  /\ (forall file,
        files_get "file" (files request) = Some file -> filename file <> "" ->
        exists body fs', api_upload_file cfg env request fs = (Some (body, 200), fs')).
Proof.
  intros Ha. split; [|split].
  - intros Hf. unfold api_upload_file. now rewrite Ha, Hf.
  - intros file Hf Hn. unfold api_upload_file. now rewrite Ha, Hf, Hn.
  - intros file Hf Hn. rewrite (api_upload_file_stores _ _ _ _ _ Ha Hf Hn). eauto.
Qed.

Lemma upload_validation_witness :
  api_upload_file Koyeb.config Sample.env (Sample.upload (Some Sample.bearer) []) ∅
  = (Some (ErrorJson false 400 "No file part in the request body.", 400), ∅)
  /\ api_upload_file Koyeb.config Sample.env
       (Sample.upload (Some Sample.bearer)
          [("file", {| filename := ""; stream := []; content_length := 0 |})]) ∅
     = (Some (ErrorJson false 400 "No selected file for upload.", 400), ∅)
  /\ exists body fs',
       api_upload_file Koyeb.config Sample.env
         (Sample.upload (Some Sample.bearer) [("file", Sample.hello_txt)]) ∅
       = (Some (body, 200), fs').
Proof.
  split; [|split].
  - exact (proj1 (upload_validation Koyeb.config Sample.env
                    (Sample.upload (Some Sample.bearer) []) ∅ eq_refl) eq_refl).
  - exact (proj1 (proj2 (upload_validation Koyeb.config Sample.env
                    (Sample.upload (Some Sample.bearer)
                       [("file", {| filename := ""; stream := []; content_length := 0 |})])
                    ∅ eq_refl)) _ eq_refl eq_refl).
  - refine (proj2 (proj2 (upload_validation Koyeb.config Sample.env
                    (Sample.upload (Some Sample.bearer) [("file", Sample.hello_txt)])
                    ∅ eq_refl)) Sample.hello_txt eq_refl _).
    discriminate.
Defined.

(** C10: an authenticated upload whose file name is not empty but is
    sanitised to the empty string is not refused: it is answered with
    200 and the empty [fileName], and the payload is stored under the
    identifier followed by a dash. *)
Theorem empty_sanitized_name_is_stored cfg env request fs file :
  authenticate cfg (authorization request) = None ->
  files_get "file" (files request) = Some file ->
  filename file <> "" ->
  Werkzeug.secure_filename (filename file) = "" ->
  api_upload_file cfg env request fs
  = (Some (UploadJson true (url_root request +:+ "share/" +:+ unique_id env +:+ "/")
             "" (content_length file) (now_isoformat env), 200),
     <[written_path cfg (unique_id env +:+ "-") := stream file]> fs).
Proof.
  intros Ha Hf Hn Hs. rewrite (api_upload_file_stores _ _ _ _ _ Ha Hf Hn), Hs.
  unfold storage_filename. reflexivity.
Qed.

Lemma empty_sanitized_name_is_stored_witness :
  api_upload_file Koyeb.config Sample.env
    (Sample.upload (Some Sample.bearer) [("file", Sample.dots)]) ∅
  = (Some (UploadJson true
             ("http://localhost:8000/" +:+ "share/" +:+ unique_id Sample.env +:+ "/")
             "" 0 "2025-11-22T12:05:00.000000", 200),
     <[written_path Koyeb.config (unique_id Sample.env +:+ "-") := [x68; x69]]> ∅).
Proof.
  refine (empty_sanitized_name_is_stored Koyeb.config Sample.env
            (Sample.upload (Some Sample.bearer) [("file", Sample.dots)]) ∅ Sample.dots
            eq_refl eq_refl _ eq_refl).
  discriminate.
Defined.

(** ** What an upload writes *)

(** The upload handler changes the file system in one place at most. *)
Lemma api_upload_file_frame cfg env request (fs : gmap string (list byte)) p :
  snd (api_upload_file cfg env request fs) !! p <> fs !! p ->
  exists file,
    files_get "file" (files request) = Some file
    /\ p = written_path cfg
             (storage_filename (unique_id env)
                (Werkzeug.secure_filename (filename file))).
Proof.
  upload_cases cfg request file ltac:(intros H; elim H; reflexivity).
  cbv beta iota zeta delta [snd]. intros Hp. exists file. split; [reflexivity|].
  rewrite written_path_eq.
  destruct (String.eq_dec
              (os_resolve (cwd cfg)
                 (Posixpath.join (UPLOAD_FOLDER cfg)
                    (storage_filename (unique_id env)
                       (Werkzeug.secure_filename (filename file))))) p) as [<-|Hne];
    [reflexivity|].
  elim Hp. rewrite lookup_insert_ne by exact Hne. reflexivity.
Qed.

(** What precedes the leaf of a joined path ends with the separator. *)
Lemma sep_after_ends a :
  Py.nonempty a = true -> Py.endswith_char "/" (a +:+ sep_after a) = true.
Proof.
  intros Ha. unfold sep_after. rewrite Ha. cbn [negb orb].
  destruct (Py.endswith_char "/" a) eqn:He.
  - now rewrite app_empty_r.
  - now rewrite (endswith_char_app "/" a "/" eq_refl).
Qed.

(** C5: whatever file name the client sends, the sanitised name has no
    directory separator (and so has whatever the steps after the ASCII
    folding make of any string); the only path an upload writes is the
    upload folder, as the process resolves it, then the separator unless
    the folder ends with one, then one component that has no separator
    and is neither empty nor "." nor "..": the file is an entry of the
    upload folder and cannot land outside it. *)
Theorem sanitized_name_cannot_escape :
  (forall raw, Py.contains "/" (Werkzeug.secure_filename raw) = false)
  /\ (forall folded,
        Py.contains "/"
          (Py.strip (fun c => Py.contains c "._")
             (Py.filter Werkzeug.filename_char
                (Py.join "_" (Py.split (Py.replace_char "/" " " folded)))))
        = false)
  /\ (forall cfg env request (fs : gmap string (list byte)) p,
        snd (api_upload_file cfg env request fs) !! p <> fs !! p ->
        exists file leaf,
          files_get "file" (files request) = Some file
          /\ leaf = storage_filename (unique_id env)
                      (Werkzeug.secure_filename (filename file))
          /\ p = storage_directory cfg
                 +:+ (if (negb (Py.nonempty (storage_directory cfg))
                          || Py.endswith_char "/" (storage_directory cfg))%bool
                      then "" else "/")
                 +:+ leaf
          /\ (Py.nonempty (storage_directory cfg) = true ->
              exists prefix,
                p = prefix +:+ leaf /\ Py.endswith_char "/" prefix = true
                /\ Py.startswith (storage_directory cfg) prefix = true)
          /\ Py.contains "/" leaf = false
          /\ leaf <> "" /\ leaf <> "." /\ leaf <> "..").
Proof.
  split; [|split].
  - intros raw. apply slash_free_contains, secure_filename_slash_free.
  - intros folded. apply slash_free_contains, slash_free_of_filename_chars.
    apply all_strip, all_filter.
  - intros cfg env request fs p Hp.
    destruct (api_upload_file_frame _ _ _ _ _ Hp) as (file & Hf & ->).
    pose proof (slash_free_contains _
                  (storage_filename_slash_free _ _ (unique_id_slash_free env)
                     (secure_filename_slash_free (filename file)))) as Hk.
    pose proof (startswith_slash _ Hk) as Hrel.
    destruct (dashed_not_special _
                (storage_filename_dashed (unique_id env)
                   (Werkzeug.secure_filename (filename file)))) as (H0 & H1 & H2).
    exists file, (storage_filename (unique_id env)
                    (Werkzeug.secure_filename (filename file))).
    split; [exact Hf|]. split; [reflexivity|].
    rewrite (written_path_join cfg _ Hrel), (join_relative_sep _ _ Hrel).
    split; [reflexivity|]. split.
    + intros Hd. exists (storage_directory cfg +:+ sep_after (storage_directory cfg)).
      split; [symmetry; apply string_app_assoc|].
      split; [exact (sep_after_ends _ Hd) | apply startswith_app].
    + split; [exact Hk|]. split; [exact H0|]. split; [exact H1 | exact H2].
Qed.

Lemma sanitized_name_cannot_escape_witness :
  Py.contains "/" (Werkzeug.secure_filename "../../etc/passwd") = false
  /\ exists file leaf,
       files_get "file" [("file", Sample.passwd)] = Some file
       /\ leaf = storage_filename (unique_id Sample.env)
                   (Werkzeug.secure_filename (filename file))
       /\ "/app/uploaded_files/a73ca73ca73c-etc_passwd"
          = storage_directory Koyeb.config
            +:+ (if (negb (Py.nonempty (storage_directory Koyeb.config))
                     || Py.endswith_char "/" (storage_directory Koyeb.config))%bool
                 then "" else "/")
            +:+ leaf
       /\ (Py.nonempty (storage_directory Koyeb.config) = true ->
           exists prefix,
             "/app/uploaded_files/a73ca73ca73c-etc_passwd" = prefix +:+ leaf
             /\ Py.endswith_char "/" prefix = true
             /\ Py.startswith (storage_directory Koyeb.config) prefix = true)
       /\ Py.contains "/" leaf = false
       /\ leaf <> "" /\ leaf <> "." /\ leaf <> "..".
Proof.
  split.
  - exact (proj1 sanitized_name_cannot_escape "../../etc/passwd").
  - refine (proj2 (proj2 sanitized_name_cannot_escape) Koyeb.config Sample.env
              (Sample.upload (Some Sample.bearer) [("file", Sample.passwd)]) ∅
              "/app/uploaded_files/a73ca73ca73c-etc_passwd" _).
    vm_compute. discriminate.
Defined.

Example storage_directory_koyeb :
  storage_directory Koyeb.config = "/app/uploaded_files".
Proof. reflexivity. Qed.

Example storage_directory_vercel :
  storage_directory Vercel.config = "/tmp/uploaded_files".
Proof. reflexivity. Qed.

(** C9: the identifier of an upload is twelve characters long, each a
    digit or one of a-f. *)
Theorem unique_id_shape env :
  String.length (unique_id env) = 12%nat /\ Py.all lower_hex (unique_id env) = true.
Proof. split; [apply unique_id_length | apply unique_id_lower_hex]. Qed.

(** ** Retrieval *)

(** C6: whatever makes [send_from_directory] fail, a file that was never
    stored or an error of the operating system when it is opened, the
    share handler answers with the one 404 page; it answers nothing but
    that page or the file with 200. *)
Theorem share_failures_are_not_found cfg (fs : gmap string (list byte)) io file_id name :
  (forall e,
     Flask.send_from_directory cfg fs io (UPLOAD_FOLDER cfg)
       (storage_filename file_id name) = Raise e ->
     serve_shared_file cfg fs io file_id name
     = Some (Html (not_found_page file_id name), 404))
  /\ (Py.nonempty (UPLOAD_FOLDER cfg) = true ->
      slash_free file_id = true -> slash_free name = true ->
      fs !! served_path cfg (storage_filename file_id name) = None ->
      serve_shared_file cfg fs io file_id name
      = Some (Html (not_found_page file_id name), 404))
  /\ (forall e, io = Some e ->
      serve_shared_file cfg fs io file_id name
      = Some (Html (not_found_page file_id name), 404))
  /\ ((exists data, serve_shared_file cfg fs io file_id name
                    = Some (FileContent data, 200))
      \/ serve_shared_file cfg fs io file_id name
         = Some (Html (not_found_page file_id name), 404)).
Proof.
  split; [|split; [|split]].
  - intros e He. unfold serve_shared_file. now rewrite He.
  - intros Hd Hi Hn Hnone.
    rewrite (serve_shared_file_lookup _ _ _ _ _ Hd Hi Hn).
    change (file_id +:+ "-" +:+ name) with (storage_filename file_id name).
    now rewrite Hnone.
  - intros e ->.
    unfold serve_shared_file, Flask.send_from_directory, Werkzeug.send_from_directory.
    destruct (Werkzeug.safe_join _ _); [|reflexivity].
    destruct (fs !! _); reflexivity.
  - unfold serve_shared_file.
    destruct (Flask.send_from_directory _ _ _ _ _); eauto.
Qed.

Lemma share_failures_are_not_found_witness :
  serve_shared_file Koyeb.config ∅ None "0123456789ab" "hello.txt"
  = Some (Html (not_found_page "0123456789ab" "hello.txt"), 404)
  /\ serve_shared_file Koyeb.config
       (<["/app/uploaded_files/0123456789ab-hello.txt" := [x68; x69]]> ∅)
       (Some (OSError 13)) "0123456789ab" "hello.txt"
     = Some (Html (not_found_page "0123456789ab" "hello.txt"), 404)
  /\ serve_shared_file Koyeb.config ∅ None "x" "../../etc/passwd"
     = Some (Html (not_found_page "x" "../../etc/passwd"), 404).
Proof.
  split; [|split].
  - exact (proj1 (proj2 (share_failures_are_not_found Koyeb.config ∅ None
                           "0123456789ab" "hello.txt"))
             eq_refl eq_refl eq_refl eq_refl).
  - exact (proj1 (proj2 (proj2 (share_failures_are_not_found Koyeb.config
                           (<["/app/uploaded_files/0123456789ab-hello.txt" := [x68; x69]]> ∅)
                           (Some (OSError 13)) "0123456789ab" "hello.txt")))
             (OSError 13) eq_refl).
  - exact (proj1 (share_failures_are_not_found Koyeb.config ∅ None
                    "x" "../../etc/passwd") NotFound eq_refl).
Defined.



(** ** Refused uploads *)

(** C8: an upload answered with anything but 200 leaves the file system
    as it was; a request that fails authentication gets its answer
    whatever its file fields are, and nothing is stored; and the handler
    always answers. *)
Theorem refused_upload_stores_nothing cfg env request (fs : gmap string (list byte)) :
  (forall body status,
     fst (api_upload_file cfg env request fs) = Some (body, status) ->
     status <> 200 ->
     snd (api_upload_file cfg env request fs) = fs)
  /\ (forall denied,
        authenticate cfg (authorization request) = Some denied ->
        forall fields root,
          api_upload_file cfg env
            {| authorization := authorization request; files := fields;
               url_root := root |} fs
          = (Some denied, fs))
  /\ fst (api_upload_file cfg env request fs) <> None.
Proof.
  split; [|split].
  - upload_cases cfg request file ltac:(reflexivity).
    cbv beta iota zeta delta [fst snd]. intros body status Hr Hs.
    elim Hs. exact (eq_sym (f_equal (fun r => match r with
                                              | Some (_, st) => st
                                              | None => 0
                                              end) Hr)).
  - intros denied Hd fields root. unfold api_upload_file.
    cbn [authorization]. now rewrite Hd.
  - unfold api_upload_file.
    destruct (authenticate cfg (authorization request)); [discriminate|].
    destruct (files_get "file" (files request)) as [file|]; [|discriminate].
    unfold file_truthy.
    destruct (filename file) as [|c r]; [discriminate|].
    cbv beta iota zeta delta [String.eqb Py.nonempty fst]. discriminate.
Qed.

Lemma refused_upload_stores_nothing_witness :
  snd (api_upload_file Koyeb.config Sample.env
         (Sample.upload (Some "Bearer wrong-token") [("file", Sample.hello_txt)]) ∅)
  = ∅
  /\ api_upload_file Koyeb.config Sample.env
       {| authorization := None; files := [("file", Sample.hello_txt)];
          url_root := "http://localhost:8000/" |} ∅
     = (Some (ErrorJson false 401
                "Authentication required. Missing Authorization header.", 401), ∅).
Proof.
  split.
  - refine (proj1 (refused_upload_stores_nothing Koyeb.config Sample.env
              (Sample.upload (Some "Bearer wrong-token") [("file", Sample.hello_txt)]) ∅)
              _ 403 eq_refl _).
    discriminate.
  - exact (proj1 (proj2 (refused_upload_stores_nothing Koyeb.config Sample.env
              (Sample.upload None []) ∅))
             _ eq_refl [("file", Sample.hello_txt)] "http://localhost:8000/").
Defined.


(* ===================================================================== *)
(** * Further properties of the handlers *)
(* ===================================================================== *)

(** ** The shape of every answer *)

(** X1: every answer of the upload handler is coherent: an error body
    says [ok = false], repeats the HTTP status as its [errorCode], and
    that status is 400, 401 or 403; a success body says [ok = true] and
    goes out with 200; the handler sends no other body. *)
Theorem upload_answer_coherent cfg env request (fs : gmap string (list byte)) :
  match fst (api_upload_file cfg env request fs) with
  | Some (ErrorJson ok code _, status) =>
      ok = false /\ code = status /\ (status = 400 \/ status = 401 \/ status = 403)
  | Some (UploadJson ok _ _ _ _, status) => ok = true /\ status = 200
  | _ => False
  end.
Proof.
  unfold api_upload_file, authenticate.
  destruct (negb (Py.truthy (authorization request))); [cbn; tauto|].
  destruct (Py.split (default "" (authorization request))) as [|scheme [|token [|]]];
    try (cbn; tauto).
  destruct (negb (Py.lower scheme =? "bearer")%string
            || negb (token =? FULL_VALID_TOKEN cfg)%string)%bool; [cbn; tauto|].
  destruct (files_get "file" (files request)) as [file|]; [|cbn; tauto].
  unfold file_truthy.
  destruct (filename file) as [|c r]; [cbn; tauto|].
  cbv beta iota zeta delta [String.eqb Py.nonempty fst]. tauto.
Qed.

(** ** What the service tells about its secret *)

Lemma authenticate_403_message cfg header ok code message :
  authenticate cfg header = Some (ErrorJson ok code message, 403) ->
  message = "Invalid Bearer Token. Token must match: " +:+ FULL_VALID_TOKEN cfg.
Proof.
  unfold authenticate.
  destruct (negb (Py.truthy header)); [discriminate|].
  destruct (Py.split (default "" header)) as [|scheme [|token [|]]]; try discriminate.
  destruct (negb (Py.lower scheme =? "bearer")%string
            || negb (token =? FULL_VALID_TOKEN cfg)%string)%bool; [|discriminate].
  intros H.
  exact (eq_sym (f_equal (fun r => match r with
                                   | Some (ErrorJson _ _ m, _) => m
                                   | _ => ""
                                   end) H)).
Qed.

Lemma bearer_token_accepted cfg :
  one_word (FULL_VALID_TOKEN cfg) = true ->
  authenticate cfg (Some ("Bearer " +:+ FULL_VALID_TOKEN cfg)) = None.
Proof.
  intros Hw. rewrite (authenticate_two_words _ _ _ _ (split_bearer_word _ Hw)).
  change (Py.lower "Bearer") with "bearer". rewrite !String.eqb_refl. reflexivity.
Qed.

(** A 403 answer of the upload handler is the answer of its
    authentication step. *)
Lemma upload_403_from_authenticate cfg env request (fs : gmap string (list byte)) body :
  fst (api_upload_file cfg env request fs) = Some (body, 403) ->
  authenticate cfg (authorization request) = Some (body, 403).
Proof.
  unfold api_upload_file.
  destruct (authenticate cfg (authorization request)) as [denied|];
    [intros Hr; exact Hr|].
  destruct (files_get "file" (files request)) as [file|]; [|discriminate].
  destruct (filename file =? "")%string; [discriminate|].
  destruct (file_truthy file); discriminate.
Qed.

Lemma upload_error_status cfg env request (fs : gmap string (list byte))
    ok code message status :
  fst (api_upload_file cfg env request fs) = Some (ErrorJson ok code message, status) ->
  status = 400 \/ status = 401 \/ status = 403.
Proof.
  unfold api_upload_file, authenticate.
  destruct (negb (Py.truthy (authorization request)));
    [intros H; injection H as _ _ _ <-; tauto|].
  destruct (Py.split (default "" (authorization request))) as [|scheme [|token [|]]];
    try (intros H; injection H as _ _ _ <-; tauto).
  destruct (negb (Py.lower scheme =? "bearer")%string
            || negb (token =? FULL_VALID_TOKEN cfg)%string)%bool;
    [intros H; injection H as _ _ _ <-; tauto|].
  destruct (files_get "file" (files request)) as [file|];
    [|intros H; injection H as _ _ _ <-; tauto].
  destruct (filename file =? "")%string;
    [intros H; injection H as _ _ _ <-; tauto|].
  destruct (file_truthy file); discriminate.
Qed.

(** X2: the 403 answer discloses the secret.  Whatever header was
    refused with 403, the text after the first 40 characters of the
    [errorMessage] is the configured token, and a request that presents
    it after "Bearer " passes the authentication step. *)
Theorem forbidden_answer_discloses_token cfg env request
    (fs : gmap string (list byte)) ok code message :
  one_word (FULL_VALID_TOKEN cfg) = true ->
  fst (api_upload_file cfg env request fs) = Some (ErrorJson ok code message, 403) ->
  drop 40 message = FULL_VALID_TOKEN cfg
  /\ authenticate cfg (Some ("Bearer " +:+ drop 40 message)) = None.
Proof.
  intros Hw Hr.
  pose proof (upload_403_from_authenticate _ _ _ _ _ Hr) as Ha.
  rewrite (authenticate_403_message _ _ _ _ _ Ha).
  change (drop 40 ("Invalid Bearer Token. Token must match: " +:+ FULL_VALID_TOKEN cfg))
    with (FULL_VALID_TOKEN cfg).
  split; [reflexivity | exact (bearer_token_accepted cfg Hw)].
Qed.

Lemma forbidden_answer_discloses_token_witness :
  drop 40 ("Invalid Bearer Token. Token must match: " +:+ Koyeb.FULL_VALID_TOKEN)
  = Koyeb.FULL_VALID_TOKEN
  /\ authenticate Koyeb.config
       (Some ("Bearer "
              +:+ drop 40 ("Invalid Bearer Token. Token must match: "
                           +:+ Koyeb.FULL_VALID_TOKEN))) = None.
Proof.
  exact (forbidden_answer_discloses_token Koyeb.config Sample.env
           (Sample.upload (Some "Bearer guess") [("file", Sample.hello_txt)]) ∅
           false 403 _ eq_refl eq_refl).
Defined.

(** X3: the documentation view publishes the secret without asking for
    any credentials: its [requiredToken] is the configured token, and
    both "Bearer " + that token and its [headerExample] without the
    15 characters of "Authorization: " pass the authentication step. *)
Theorem documented_token_authenticates cfg notes :
  one_word (FULL_VALID_TOKEN cfg) = true ->
  exists auth token example,
    json_get "authentication" (serve_api_docs_json cfg notes) = Some auth
    /\ json_get "requiredToken" auth = Some (JStr token)
    /\ json_get "headerExample" auth = Some (JStr example)
    /\ token = FULL_VALID_TOKEN cfg
    /\ authenticate cfg (Some ("Bearer " +:+ token)) = None
    /\ authenticate cfg (Some (drop 15 example)) = None.
Proof.
  intros Hw. eexists _, _, _.
  split; [reflexivity|]. split; [reflexivity|]. split; [reflexivity|].
  split; [reflexivity|].
  split; exact (bearer_token_accepted cfg Hw).
Qed.

Lemma documented_token_authenticates_witness :
  exists auth token example,
    json_get "authentication" (serve_api_docs_json Vercel.config docs_notes_temporary)
    = Some auth
    /\ json_get "requiredToken" auth = Some (JStr token)
    /\ json_get "headerExample" auth = Some (JStr example)
    /\ token = Vercel.FULL_VALID_TOKEN
    /\ authenticate Vercel.config (Some ("Bearer " +:+ token)) = None
    /\ authenticate Vercel.config (Some (drop 15 example)) = None.
Proof.
  exact (documented_token_authenticates Vercel.config docs_notes_temporary eq_refl).
Defined.

(** X4: every status the upload handler sends with an error body is
    among the [errorCode]s that the documentation view lists for
    "/api/upload"; yet the message of a 403 answer is never one of the
    documented messages. *)
Theorem upload_error_codes_documented cfg env request
    (fs : gmap string (list byte)) notes ok code message status :
  fst (api_upload_file cfg env request fs) = Some (ErrorJson ok code message, status) ->
  exists endpoint,
    documented_endpoints (serve_api_docs_json cfg notes) = [endpoint]
    /\ json_get "path" endpoint = Some (JStr "/api/upload")
    /\ In status (documented_error_codes endpoint)
    /\ (status = 403 -> ~ In message (documented_error_messages endpoint)).
Proof.
  intros Hr. eexists. split; [reflexivity|]. split; [reflexivity|].
  pose proof (upload_error_status _ _ _ _ _ _ _ _ Hr) as Hs.
  split.
  - destruct Hs as [-> | [-> | ->]]; cbn; auto.
  - intros ->.
    pose proof (upload_403_from_authenticate _ _ _ _ _ Hr) as Ha.
    rewrite (authenticate_403_message _ _ _ _ _ Ha).
    cbn. intros [H|[H|[H|H]]]; [discriminate H .. | exact H].
Qed.

Lemma upload_error_codes_documented_witness :
  exists endpoint,
    documented_endpoints (serve_api_docs_json Koyeb.config docs_notes_persistent)
    = [endpoint]
    /\ json_get "path" endpoint = Some (JStr "/api/upload")
    /\ In 403 (documented_error_codes endpoint)
    /\ (403 = 403 ->
        ~ In ("Invalid Bearer Token. Token must match: " +:+ Koyeb.FULL_VALID_TOKEN)
            (documented_error_messages endpoint)).
Proof.
  exact (upload_error_codes_documented Koyeb.config Sample.env
           (Sample.upload (Some "Bearer guess") [("file", Sample.hello_txt)]) ∅
           docs_notes_persistent false 403 _ 403 eq_refl).
Defined.

(** ** Which secrets can be presented at all *)

Lemma split_when_pieces p s :
  Forall (fun w => Py.all (fun c => negb (p c)) w = true) (Py.split_when p s).
Proof.
  induction s as [|c s IH]; cbn [Py.split_when].
  - constructor; [reflexivity | constructor].
  - destruct (p c) eqn:Hc.
    + constructor; [reflexivity | exact IH].
    + destruct (Py.split_when p s) as [|w ws].
      * constructor; [|constructor]. cbn. now rewrite Hc.
      * inversion IH as [|? ? Hw Hws]; subst.
        constructor; [|exact Hws]. cbn. now rewrite Hc, Hw.
Qed.

(** Every word of [s.split()] is non-empty and free of white space. *)
Lemma split_words s : Forall (fun w => one_word w = true) (Py.split s).
Proof.
  unfold Py.split. pose proof (split_when_pieces Py.isspace s) as H.
  induction H as [|w ws Hw _ IH]; cbn [List.filter]; [constructor|].
  destruct (Py.nonempty w) eqn:Hne; [|exact IH].
  constructor; [|exact IH]. unfold one_word. now rewrite Hne, Hw.
Qed.

(** X5: some header passes the authentication step if and only if the
    configured token is one non-empty word without white space: a
    secret with a blank in it, or the empty secret, locks every client
    out. *)
Theorem authenticate_satisfiable_iff cfg :
  (exists header, authenticate cfg header = None)
  <-> one_word (FULL_VALID_TOKEN cfg) = true.
Proof.
  split.
  - intros (header & Ha). revert Ha. unfold authenticate.
    destruct (negb (Py.truthy header)); [discriminate|].
    pose proof (split_words (default "" header)) as Hw.
    destruct (Py.split (default "" header)) as [|scheme [|token [|]]];
      try discriminate.
    destruct (negb (Py.lower scheme =? "bearer")%string) ; [discriminate|].
    destruct (String.eqb_spec token (FULL_VALID_TOKEN cfg)) as [<-|]; [|discriminate].
    intros _. inversion Hw as [|? ? _ Hw']; subst.
    inversion Hw' as [|? ? Ht _]; subst. exact Ht.
  - intros Hw. exists (Some ("Bearer " +:+ FULL_VALID_TOKEN cfg)).
    exact (bearer_token_accepted cfg Hw).
Qed.

(** ** Uploads side by side *)

(** A path that no upload of this request could write is left alone. *)
Lemma upload_lookup_other cfg env request (fs : gmap string (list byte)) p :
  (forall file,
     files_get "file" (files request) = Some file ->
     p <> written_path cfg
            (storage_filename (unique_id env)
               (Werkzeug.secure_filename (filename file)))) ->
  snd (api_upload_file cfg env request fs) !! p = fs !! p.
Proof.
  upload_cases cfg request file ltac:(intros _; reflexivity).
  intros Hp. cbv beta iota zeta delta [snd].
  rewrite lookup_insert_ne; [reflexivity|].
  intros Heq. exact (Hp file eq_refl (eq_sym Heq)).
Qed.

(** Identifiers of one length make the storage key injective. *)
Lemma storage_filename_inj id1 : forall id2 n1 n2,
  String.length id1 = String.length id2 ->
  storage_filename id1 n1 = storage_filename id2 n2 -> id1 = id2 /\ n1 = n2.
Proof.
  unfold storage_filename.
  induction id1 as [|c id1 IH]; intros [|d id2] n1 n2 Hlen H; try discriminate Hlen.
  - split; [reflexivity|]. exact (String.app_inj "-" _ _ H).
  - change (String c (id1 +:+ "-" +:+ n1) = String d (id2 +:+ "-" +:+ n2)) in H.
    injection H as -> H. injection Hlen as Hlen. destruct (IH _ _ _ Hlen H) as [-> ->]. now split.
Qed.

Lemma storage_path_inj cfg env1 env2 n1 n2 :
  slash_free n1 = true -> slash_free n2 = true ->
  written_path cfg (storage_filename (unique_id env1) n1)
  = written_path cfg (storage_filename (unique_id env2) n2) ->
  unique_id env1 = unique_id env2 /\ n1 = n2.
Proof.
  intros H1 H2 Hj.
  apply written_path_inj in Hj.
  - apply storage_filename_inj in Hj; [exact Hj|].
    now rewrite !unique_id_length.
  - apply startswith_slash, slash_free_contains.
    exact (storage_filename_slash_free _ _ (unique_id_slash_free env1) H1).
  - apply startswith_slash, slash_free_contains.
    exact (storage_filename_slash_free _ _ (unique_id_slash_free env2) H2).
Qed.

Lemma serve_shared_file_at_key cfg (fs : gmap string (list byte)) io file_id name :
  Py.nonempty (UPLOAD_FOLDER cfg) = true ->
  slash_free file_id = true -> slash_free name = true ->
  serve_shared_file cfg fs io file_id name
  = match fs !! served_path cfg (storage_filename file_id name), io with
    | Some data, None => Some (FileContent data, 200)
    | _, _ => Some (Html (not_found_page file_id name), 404)
    end.
Proof. exact (serve_shared_file_lookup cfg fs io file_id name). Qed.

(** X6: where the share view looks where the upload handler writes (an
    absolute folder, or a process run in the directory of [app.py]), a
    later upload under another identifier does not disturb an earlier
    file: after a successful upload, and then any second upload request
    whose identifier differs, the share handler still answers the first
    identifier and name with the first payload. *)
Theorem later_upload_keeps_earlier_file cfg env1 env2 request1 request2
    (fs fs1 : gmap string (list byte)) link name size date :
  same_directory cfg = true ->
  Py.nonempty (UPLOAD_FOLDER cfg) = true ->
  api_upload_file cfg env1 request1 fs
  = (Some (UploadJson true link name size date, 200), fs1) ->
  unique_id env2 <> unique_id env1 ->
  exists file,
    files_get "file" (files request1) = Some file
    /\ serve_shared_file cfg (snd (api_upload_file cfg env2 request2 fs1)) None
         (unique_id env1) name
       = Some (FileContent (stream file), 200).
Proof.
  intros Hsame Hd Hup Hid.
  destruct (api_upload_file_200_inv _ _ _ _ _ _ _ _ _ Hup)
    as (file & Hf & Hn & Hname & _ & Hfs).
  exists file. split; [exact Hf|].
  assert (slash_free name = true) as Hsf
    by (rewrite Hname; apply secure_filename_slash_free).
  rewrite (serve_shared_file_at_key _ _ _ _ _ Hd (unique_id_slash_free env1) Hsf).
  rewrite (served_path_written cfg _ Hsame).
  rewrite upload_lookup_other.
  - rewrite Hfs, lookup_insert_eq. reflexivity.
  - intros file2 _ Heq.
    apply storage_path_inj in Heq;
      [|exact Hsf | apply secure_filename_slash_free].
    destruct Heq as [Heq _]. exact (Hid (eq_sym Heq)).
Qed.

Lemma later_upload_keeps_earlier_file_witness :
  exists file,
    files_get "file" [("file", Sample.hello_txt)] = Some file
    /\ serve_shared_file Koyeb.config
         (snd (api_upload_file Koyeb.config later_env
                 (Sample.upload (Some Sample.bearer) [("file", Sample.passwd)])
                 (<[written_path Koyeb.config
                      (storage_filename (unique_id Sample.env) "hello.txt")
                    := [x68; x69]]> ∅)))
         None (unique_id Sample.env) "hello.txt"
       = Some (FileContent (stream file), 200).
Proof.
  refine (later_upload_keeps_earlier_file Koyeb.config Sample.env later_env
            (Sample.upload (Some Sample.bearer) [("file", Sample.hello_txt)])
            (Sample.upload (Some Sample.bearer) [("file", Sample.passwd)])
            ∅ _
            ("http://localhost:8000/" +:+ "share/" +:+ unique_id Sample.env +:+ "/"
             +:+ "hello.txt")
            "hello.txt" 0 "2025-11-22T12:05:00.000000" eq_refl eq_refl _ _).
  - refine (api_upload_file_stores Koyeb.config Sample.env
              (Sample.upload (Some Sample.bearer) [("file", Sample.hello_txt)])
              ∅ Sample.hello_txt eq_refl eq_refl _).
    discriminate.
  - vm_compute. discriminate.
Defined.



(** ** The landing page *)









(** ** The URL rule of the share view *)

(** [sep.join(s.split(sep))] gives [s] back. *)
Lemma join_split_on c s : Py.join (String c "") (Py.split_on c s) = s.
Proof.
  unfold Py.split_on. induction s as [|a s IH]; [reflexivity|].
  cbn [Py.split_when]. destruct (Ascii.eqb_spec c a) as [<-|Hne].
  - destruct (Py.split_when (Ascii.eqb c) s) as [|w ws] eqn:Hs.
    + destruct s; cbn in Hs; [discriminate|].
      destruct (Ascii.eqb c a); [discriminate|].
      destruct (Py.split_when (Ascii.eqb c) s); discriminate.
    + change (String c (Py.join (String c "") (w :: ws)) = String c s).
      now rewrite IH.
  - destruct (Py.split_when (Ascii.eqb c) s) as [|w ws] eqn:Hs.
    + destruct s; cbn in Hs; [discriminate|].
      destruct (Ascii.eqb c a0); [discriminate|].
      destruct (Py.split_when (Ascii.eqb c) s); discriminate.
    + rewrite <- IH. destruct ws; reflexivity.
Qed.

Lemma split_on_pieces c s : Forall (fun w => Py.contains c w = false) (Py.split_on c s).
Proof.
  unfold Py.split_on.
  pose proof (split_when_pieces (Ascii.eqb c) s) as H.
  induction H as [|w ws Hw _ IH]; constructor; [|exact IH].
  clear -Hw. induction w as [|a w IHw]; [reflexivity|].
  cbn in *. apply andb_prop in Hw. destruct Hw as [Ha Hw].
  apply negb_true_iff in Ha. rewrite Ascii.eqb_sym, Ha. now apply IHw.
Qed.

(** X9: the rule ['/share/<file_id>/<filename>'] hands the share view
    only non-empty segments without "/", and the path it matched is
    "/share/" + file_id + "/" + filename: no URL makes the view see a
    separator or an empty segment. *)
Theorem share_rule_segments path file_id name :
  match_share_rule path = Some (file_id, name) ->
  url_segment file_id = true /\ url_segment name = true
  /\ path = "/share/" +:+ file_id +:+ "/" +:+ name.
Proof.
  unfold match_share_rule.
  pose proof (join_split_on "/" path) as Hjoin.
  pose proof (split_on_pieces "/" path) as Hpieces.
  destruct (Py.split_on "/" path) as [|root [|share [|a [|b [|]]]]]; try discriminate.
  destruct (String.eqb_spec root "") as [->|]; [|discriminate].
  destruct (String.eqb_spec share "share") as [->|]; [|discriminate].
  destruct (Py.nonempty a) eqn:Ha; [|discriminate].
  destruct (Py.nonempty b) eqn:Hb; [|discriminate].
  cbn [andb]. intros H. injection H as <- <-.
  inversion Hpieces as [|? ? _ H1]; subst.
  inversion H1 as [|? ? _ H2]; subst.
  inversion H2 as [|? ? Hsa H3]; subst.
  inversion H3 as [|? ? Hsb _]; subst.
  unfold url_segment, slash_free. rewrite Ha, Hb, Hsa, Hsb.
  repeat split.
Qed.

Lemma share_rule_segments_witness :
  url_segment "a73ca73ca73c" = true /\ url_segment "hello.txt" = true
  /\ "/share/a73ca73ca73c/hello.txt" = "/share/" +:+ "a73ca73ca73c" +:+ "/" +:+ "hello.txt".
Proof.
  exact (share_rule_segments "/share/a73ca73ca73c/hello.txt" "a73ca73ca73c" "hello.txt"
           eq_refl).
Defined.






(** ** Sanitised names, sanitised again *)

Section StripFacts.

Variable p : ascii -> bool.

Lemma lstrip_fixed s : Py.lstrip p (Py.lstrip p s) = Py.lstrip p s.
Proof.
  induction s as [|c s IH]; [reflexivity|].
  cbn [Py.lstrip]. destruct (p c) eqn:Hc; [exact IH|].
  cbn [Py.lstrip]. now rewrite Hc.
Qed.

Lemma rstrip_fixed s : Py.rstrip p (Py.rstrip p s) = Py.rstrip p s.
Proof.
  induction s as [|c s IH]; [reflexivity|].
  cbn [Py.rstrip]. destruct (Py.rstrip p s) as [|d r] eqn:Hr.
  - destruct (p c) eqn:Hc; [reflexivity|]. cbn [Py.rstrip]. now rewrite Hc.
  - change (Py.rstrip p (String c (String d r)))
      with (match Py.rstrip p (String d r) with
            | EmptyString => if p c then EmptyString else String c EmptyString
            | String _ _ as r' => String c r'
            end).
    now rewrite IH.
Qed.

(** Stripping the right end keeps a clean left end clean. *)
Lemma lstrip_rstrip s :
  Py.lstrip p s = s -> Py.lstrip p (Py.rstrip p s) = Py.rstrip p s.
Proof.
  destruct s as [|c s]; [reflexivity|].
  cbn [Py.lstrip]. destruct (p c) eqn:Hc.
  - intros H. exfalso.
    assert (forall t, String.length (Py.lstrip p t) <= String.length t)%nat as Hlen.
    { induction t as [|a t IHt]; cbn; [lia|]. destruct (p a); cbn; lia. }
    pose proof (Hlen s) as H'. rewrite H in H'. cbn in H'. lia.
  - intros _. cbn [Py.rstrip].
    destruct (Py.rstrip p s); [rewrite Hc|]; cbn [Py.lstrip]; now rewrite Hc.
Qed.

Lemma strip_fixed s : Py.strip p (Py.strip p s) = Py.strip p s.
Proof.
  unfold Py.strip.
  rewrite (lstrip_rstrip _ (lstrip_fixed s)). apply rstrip_fixed.
Qed.

(** What is left after stripping neither starts nor ends in [p]. *)
Lemma lstrip_head c s r : Py.lstrip p s = String c r -> p c = false.
Proof.
  induction s as [|a s IH]; [discriminate|].
  cbn [Py.lstrip]. destruct (p a) eqn:Ha; [exact IH|].
  intros H. injection H as <- _. exact Ha.
Qed.

Lemma rstrip_last c s : Py.endswith_char c (Py.rstrip p s) = true -> p c = false.
Proof.
  induction s as [|a s IH]; [discriminate|].
  cbn [Py.rstrip]. destruct (Py.rstrip p s) as [|d r] eqn:Hr.
  - destruct (p a) eqn:Ha; [discriminate|]. cbn.
    intros H. apply Ascii.eqb_eq in H. now subst.
  - intros H. apply IH. exact H.
Qed.

Lemma strip_head c s r : Py.strip p s = String c r -> p c = false.
Proof.
  unfold Py.strip. intros H.
  pose proof (lstrip_rstrip _ (lstrip_fixed s)) as Hl. rewrite H in Hl.
  exact (lstrip_head _ _ _ Hl).
Qed.

Lemma filter_all s : Py.all p s = true -> Py.filter p s = s.
Proof.
  induction s as [|c s IH]; [reflexivity|]. cbn.
  intros H. apply andb_prop in H. destruct H as [Hc Hs]. now rewrite Hc, IH.
Qed.

End StripFacts.

Lemma filename_char_ascii c : Werkzeug.filename_char c = true -> Werkzeug.ascii_fold c = String c "".
Proof.
  destruct c as [[] [] [] [] [] [] [] []]; vm_compute; congruence.
Qed.

Lemma filename_char_not_space c : Werkzeug.filename_char c = true -> Py.isspace c = false.
Proof.
  destruct c as [[] [] [] [] [] [] [] []]; vm_compute; congruence.
Qed.

Lemma to_ascii_filename_chars s :
  Py.all Werkzeug.filename_char s = true -> Werkzeug.to_ascii s = s.
Proof.
  induction s as [|c s IH]; [reflexivity|]. cbn [Py.all Werkzeug.to_ascii].
  intros H. apply andb_prop in H. destruct H as [Hc Hs].
  now rewrite (filename_char_ascii _ Hc), (IH Hs).
Qed.

Lemma replace_char_absent a b s :
  Py.contains a s = false -> Py.replace_char a b s = s.
Proof.
  induction s as [|c s IH]; [reflexivity|]. cbn [Py.contains Py.replace_char].
  intros H. apply orb_false_elim in H. destruct H as [Hc Hs].
  now rewrite Hc, (IH Hs).
Qed.

(** A string without white space is its own single word, or no word. *)
Lemma join_split_no_space s :
  Py.all (fun c => negb (Py.isspace c)) s = true -> Py.join "_" (Py.split s) = s.
Proof.
  intros H. unfold Py.split. rewrite (split_when_none _ _ H).
  destruct s; reflexivity.
Qed.

(** What [secure_filename] does to a name it could have returned. *)
Lemma secure_filename_clean s :
  Py.all Werkzeug.filename_char s = true ->
  Werkzeug.secure_filename s = Py.strip (fun c => Py.contains c "._") s.
Proof.
  intros H. unfold Werkzeug.secure_filename.
  rewrite (to_ascii_filename_chars _ H).
  rewrite (replace_char_absent _ _ _ (contains_all _ _ _ filename_char_not_slash H)).
  rewrite join_split_no_space.
  - now rewrite (filter_all _ _ H).
  - apply (all_weaken Werkzeug.filename_char); [|exact H].
    intros c Hc. now rewrite (filename_char_not_space _ Hc).
Qed.

(** Sanitising is idempotent. *)
Lemma secure_filename_twice raw :
  Werkzeug.secure_filename (Werkzeug.secure_filename raw)
  = Werkzeug.secure_filename raw.
Proof.
  rewrite (secure_filename_clean _ (secure_filename_chars raw)).
  unfold Werkzeug.secure_filename at 1 2. apply strip_fixed.
Qed.

(** A sanitised name never starts or ends with "." or "_". *)
Lemma secure_filename_ends raw :
  (forall c,
     Py.startswith (String c "") (Werkzeug.secure_filename raw) = true
     \/ Py.endswith_char c (Werkzeug.secure_filename raw) = true ->
     Py.contains c "._" = false)
  /\ Werkzeug.secure_filename raw <> "." /\ Werkzeug.secure_filename raw <> "..".
Proof.
  assert (forall d r, Werkzeug.secure_filename raw = String d r ->
                      Py.contains d "._" = false) as Hhead.
  { intros d r Hs. unfold Werkzeug.secure_filename in Hs.
    exact (strip_head _ _ _ _ Hs). }
  split; [|split].
  - intros c [H|H].
    + destruct (Werkzeug.secure_filename raw) as [|d r] eqn:Hs; [discriminate|].
      cbn in H. apply andb_prop in H. destruct H as [Hc _].
      apply Ascii.eqb_eq in Hc. subst d. exact (Hhead _ _ eq_refl).
    + unfold Werkzeug.secure_filename, Py.strip in H.
      exact (rstrip_last _ _ _ H).
  - intros Hs. specialize (Hhead _ _ Hs). discriminate.
  - intros Hs. specialize (Hhead _ _ Hs). discriminate.
Qed.

(** X11: the [fileName] of a successful upload is a fixed point of the
    sanitising: an authenticated request that sends a file under the
    name a previous upload returned is answered with 200 and that very
    [fileName] when the name is not empty, and is refused with 400
    (no selected file) when it is empty. *)
Theorem reupload_under_returned_name cfg env1 env2 request1 request2
    (fs fs1 fs2 : gmap string (list byte)) link name size date file2 :
  api_upload_file cfg env1 request1 fs
  = (Some (UploadJson true link name size date, 200), fs1) ->
  authenticate cfg (authorization request2) = None ->
  files_get "file" (files request2) = Some file2 ->
  filename file2 = name ->
  (name <> "" ->
   exists link2 fs',
     api_upload_file cfg env2 request2 fs2
     = (Some (UploadJson true link2 name (content_length file2)
                (now_isoformat env2), 200), fs'))
  /\ (name = "" ->
      api_upload_file cfg env2 request2 fs2
      = (Some (ErrorJson false 400 "No selected file for upload.", 400), fs2)).
Proof.
  intros Hup Ha Hf Hname.
  destruct (api_upload_file_200_inv _ _ _ _ _ _ _ _ _ Hup)
    as (file1 & _ & _ & Hn1 & _ & _).
  split.
  - intros Hne. rewrite <- Hname in Hne.
    rewrite (api_upload_file_stores _ _ _ _ _ Ha Hf Hne).
    rewrite Hname, Hn1, secure_filename_twice. eauto.
  - intros He. unfold api_upload_file. rewrite Ha, Hf, Hname, He. reflexivity.
Qed.

Lemma reupload_under_returned_name_witness :
  (exists link2 fs',
     api_upload_file Koyeb.config later_env
       (Sample.upload (Some Sample.bearer)
          [("file", {| filename := "etc_passwd"; stream := [x79];
                       content_length := 1 |})])
       ∅
     = (Some (UploadJson true link2 "etc_passwd" 1 "2025-11-22T12:06:30.000000", 200),
        fs')).
Proof.
  assert (api_upload_file Koyeb.config Sample.env
            (Sample.upload (Some Sample.bearer) [("file", Sample.passwd)]) ∅
          = (Some (UploadJson true
                     ("http://localhost:8000/" +:+ "share/" +:+ unique_id Sample.env
                      +:+ "/" +:+ "etc_passwd")
                     "etc_passwd" 0 "2025-11-22T12:05:00.000000", 200),
             <[written_path Koyeb.config
                 (storage_filename (unique_id Sample.env) "etc_passwd") := [x78]]> ∅))
    as Hup.
  { refine (api_upload_file_stores Koyeb.config Sample.env
              (Sample.upload (Some Sample.bearer) [("file", Sample.passwd)])
              ∅ Sample.passwd eq_refl eq_refl _).
    discriminate. }
  refine (proj1 (reupload_under_returned_name Koyeb.config Sample.env later_env
                   (Sample.upload (Some Sample.bearer) [("file", Sample.passwd)])
                   (Sample.upload (Some Sample.bearer)
                      [("file", {| filename := "etc_passwd"; stream := [x79];
                                   content_length := 1 |})])
                   ∅ _ ∅ _ "etc_passwd" 0 "2025-11-22T12:05:00.000000"
                   {| filename := "etc_passwd"; stream := [x79]; content_length := 1 |}
                   Hup eq_refl eq_refl eq_refl) _).
  discriminate.
Defined.

(** X12: the [fileName] of a successful upload never starts or ends
    with "." or "_": the stored file is never a hidden file, and the
    name is never "." or "..". *)
Theorem stored_name_edges cfg env request (fs fs' : gmap string (list byte))
    link name size date :
  api_upload_file cfg env request fs
  = (Some (UploadJson true link name size date, 200), fs') ->
  (forall c,
     Py.startswith (String c "") name = true \/ Py.endswith_char c name = true ->
     Py.contains c "._" = false)
  /\ name <> "." /\ name <> "..".
Proof.
  intros Hup.
  destruct (api_upload_file_200_inv _ _ _ _ _ _ _ _ _ Hup)
    as (file & _ & _ & -> & _ & _).
  apply secure_filename_ends.
Qed.

Lemma stored_name_edges_witness :
  Py.contains "b" "._" = false /\ "bashrc" <> "." /\ "bashrc" <> "..".
Proof.
  assert (api_upload_file Koyeb.config Sample.env
            (Sample.upload (Some Sample.bearer)
               [("file", {| filename := ".bashrc_"; stream := [];
                            content_length := 0 |})]) ∅
          = (Some (UploadJson true
                     ("http://localhost:8000/" +:+ "share/" +:+ unique_id Sample.env
                      +:+ "/" +:+ "bashrc")
                     "bashrc" 0 "2025-11-22T12:05:00.000000", 200),
             <[written_path Koyeb.config
                 (storage_filename (unique_id Sample.env) "bashrc") := []]> ∅))
    as Hup.
  { refine (api_upload_file_stores Koyeb.config Sample.env
              (Sample.upload (Some Sample.bearer)
                 [("file", {| filename := ".bashrc_"; stream := [];
                              content_length := 0 |})])
              ∅ _ eq_refl eq_refl _).
    discriminate. }
  pose proof (stored_name_edges _ _ _ _ _ _ _ _ _ Hup) as (Hc & H1 & H2).
  split; [|split; assumption].
  exact (Hc "b"%char (or_introl eq_refl)).
Defined.

(** ** Which file names are sanitised to nothing *)

Section AllFacts.

Variables p q : ascii -> bool.

Lemma all_ext s : (forall c, p c = q c) -> Py.all p s = Py.all q s.
Proof.
  intros H. induction s as [|c s IH]; [reflexivity|]. cbn. now rewrite H, IH.
Qed.

Lemma all_lstrip_eq s : Py.all p (Py.lstrip p s) = Py.all p s.
Proof.
  induction s as [|c s IH]; [reflexivity|]. cbn [Py.lstrip].
  destruct (p c) eqn:Hc; [|reflexivity]. cbn [Py.all]. now rewrite Hc, IH.
Qed.

Lemma rstrip_empty s : Py.rstrip p s = "" <-> Py.all p s = true.
Proof.
  clear q. induction s as [|c s IH]; [cbn; tauto|]. cbn [Py.rstrip Py.all].
  destruct (Py.rstrip p s) as [|d r].
  - destruct (p c); cbn [andb]; [tauto|]. split; discriminate.
  - split; [discriminate|]. intros H. apply andb_prop in H.
    destruct H as [_ H]. apply IH in H. discriminate H.
Qed.

Lemma strip_empty s : Py.strip p s = "" <-> Py.all p s = true.
Proof. clear q. unfold Py.strip. now rewrite rstrip_empty, all_lstrip_eq. Qed.

Lemma all_of_filter s :
  Py.all q (Py.filter p s) = Py.all (fun c => negb (p c) || q c)%bool s.
Proof.
  induction s as [|c s IH]; [reflexivity|]. cbn [Py.filter Py.all].
  destruct (p c); cbn [negb orb Py.all]; now rewrite IH.
Qed.

Lemma all_of_join sep ws :
  Py.all q sep = true -> Py.all q (Py.join sep ws) = forallb (Py.all q) ws.
Proof.
  intros Hsep. induction ws as [|w ws IH]; [reflexivity|].
  cbn [Py.join forallb]. destruct ws as [|w' ws'].
  - cbn. now rewrite andb_true_r.
  - now rewrite !all_app, Hsep, IH.
Qed.

Lemma forallb_all_nonempty ws :
  forallb (Py.all q) (List.filter Py.nonempty ws) = forallb (Py.all q) ws.
Proof.
  induction ws as [|w ws IH]; [reflexivity|]. cbn [List.filter forallb].
  destruct w; cbn [Py.nonempty forallb Py.all]; [exact IH | now rewrite IH].
Qed.

Lemma all_of_split_when s :
  forallb (Py.all q) (Py.split_when p s) = Py.all (fun c => p c || q c)%bool s.
Proof.
  induction s as [|c s IH]; [reflexivity|]. cbn [Py.split_when Py.all].
  destruct (p c); cbn [orb andb].
  - cbn [forallb Py.all]. exact IH.
  - rewrite <- IH. destruct (Py.split_when p s) as [|w ws]; cbn.
    + now rewrite andb_true_r.
    + now rewrite andb_assoc.
Qed.

Lemma all_of_replace a b s :
  q a = true -> q b = true -> Py.all q (Py.replace_char a b s) = Py.all q s.
Proof.
  intros Ha Hb. induction s as [|c s IH]; [reflexivity|].
  cbn [Py.replace_char Py.all]. rewrite IH.
  destruct (Ascii.eqb_spec c a) as [->|]; [now rewrite Ha, Hb | reflexivity].
Qed.

End AllFacts.

Lemma name_char_table c :
  (Py.isspace c || (negb (Werkzeug.filename_char c) || Py.contains c "._"))%bool
  = negb (name_char c).
Proof. destruct c as [[] [] [] [] [] [] [] []]; reflexivity. Qed.

(** A file name is sanitised to the empty string exactly when, once
    folded to ASCII, it holds no letter, no digit and no "-". *)
Lemma secure_filename_empty raw :
  Werkzeug.secure_filename raw = ""
  <-> Py.all (fun c => negb (name_char c)) (Werkzeug.to_ascii raw) = true.
Proof.
  unfold Werkzeug.secure_filename. rewrite strip_empty, all_of_filter.
  rewrite all_of_join by reflexivity.
  unfold Py.split. rewrite forallb_all_nonempty, all_of_split_when.
  rewrite all_of_replace by reflexivity.
  now rewrite (all_ext _ _ _ name_char_table).
Qed.

(** X13: a successful upload returns the empty [fileName], and stores
    the payload under the bare identifier and dash, exactly when the
    client's file name, folded to ASCII, holds no letter, no digit and
    no "-". *)
Theorem empty_file_name_iff cfg env request (fs fs' : gmap string (list byte))
    link name size date :
  api_upload_file cfg env request fs
  = (Some (UploadJson true link name size date, 200), fs') ->
  exists file,
    files_get "file" (files request) = Some file
    /\ (name = ""
        <-> Py.all (fun c => negb (name_char c)) (Werkzeug.to_ascii (filename file))
            = true).
Proof.
  intros Hup.
  destruct (api_upload_file_200_inv _ _ _ _ _ _ _ _ _ Hup)
    as (file & Hf & _ & -> & _ & _).
  exists file. split; [exact Hf | apply secure_filename_empty].
Qed.

Lemma empty_file_name_iff_witness :
  exists file,
    files_get "file" (files (Sample.upload (Some Sample.bearer) [("file", Sample.dots)]))
    = Some file
    /\ ("" = ""
        <-> Py.all (fun c => negb (name_char c)) (Werkzeug.to_ascii (filename file))
            = true).
Proof.
  assert (api_upload_file Koyeb.config Sample.env
            (Sample.upload (Some Sample.bearer) [("file", Sample.dots)]) ∅
          = (Some (UploadJson true
                     ("http://localhost:8000/" +:+ "share/" +:+ unique_id Sample.env
                      +:+ "/" +:+ "")
                     "" 0 "2025-11-22T12:05:00.000000", 200),
             <[written_path Koyeb.config
                 (storage_filename (unique_id Sample.env) "") := [x68; x69]]> ∅))
    as Hup.
  { refine (api_upload_file_stores Koyeb.config Sample.env
              (Sample.upload (Some Sample.bearer) [("file", Sample.dots)])
              ∅ Sample.dots eq_refl eq_refl _).
    discriminate. }
  exact (empty_file_name_iff _ _ _ _ _ _ _ _ _ Hup).
Defined.

(** ** The share view stays inside the upload folder *)

Section NormpathFacts.

Variable initial_slashes : nat.

Lemma normpath_step_ok stack comp :
  slash_free comp = true -> normpath_stack_ok initial_slashes stack ->
  normpath_stack_ok initial_slashes (Posixpath.normpath_step initial_slashes stack comp).
Proof.
  intros Hsf (ords & dds & -> & Hords & Hdds & Hk). unfold Posixpath.normpath_step.
  unfold normpath_stack_ok.
  destruct (String.eqb_spec comp "") as [|H0]; [now exists ords, dds|].
  destruct (String.eqb_spec comp ".") as [|H1]; [now exists ords, dds|].
  cbn [orb]. destruct (String.eqb_spec comp "..") as [->|H2]; cbn [negb orb].
  - destruct ords as [|o ords].
    + cbn [app] in *. destruct dds as [|d dds].
      * destruct (Nat.eqb_spec initial_slashes 0) as [Hz|Hz]; cbn [andb orb].
        -- exists [], [".."]. repeat split; auto. intros Hn. now elim Hn.
        -- exists [], []. repeat split; auto.
      * inversion Hdds as [|? ? Hd _]; subst d.
        rewrite String.eqb_refl, orb_true_r.
        exists [], (".." :: ".." :: dds). repeat split; auto.
        intros Hn. specialize (Hk Hn). discriminate Hk.
    + cbn [app]. inversion Hords as [|? ? Ho Hords']; subst.
      rewrite andb_false_r. cbn [orb].
      destruct (String.eqb_spec o "..") as [->|_]; [discriminate Ho|].
      now exists ords, dds.
  - exists (comp :: ords), dds. repeat split; auto.
    constructor; [|exact Hords]. unfold ordinary_component.
    apply String.eqb_neq in H1, H2. rewrite H1, H2, Hsf.
    destruct comp; [contradiction | reflexivity].
Qed.

Lemma normpath_fold_ok comps : forall stack,
  Forall (fun c => slash_free c = true) comps -> normpath_stack_ok initial_slashes stack ->
  normpath_stack_ok initial_slashes (fold_left (Posixpath.normpath_step initial_slashes) comps stack).
Proof.
  induction comps as [|c comps IH]; intros stack Hc Hs; [exact Hs|].
  inversion Hc; subst. cbn [fold_left]. apply IH; [assumption|].
  now apply normpath_step_ok.
Qed.

End NormpathFacts.

Lemma split_on_slash_free s :
  Forall (fun c => slash_free c = true) (Py.split_on "/" s).
Proof.
  pose proof (split_on_pieces "/" s) as H.
  induction H as [|w ws Hw _ IH]; constructor; [|exact IH].
  unfold slash_free. now rewrite Hw.
Qed.

(** The result of [normpath] on a non-empty path: absolute, or ".", or
    the components that are left, the ".." first. *)
Lemma normpath_cases path :
  path <> "" ->
  Py.startswith "/" (Posixpath.normpath path) = true
  \/ Posixpath.normpath path = "."
  \/ exists dds ords,
       (dds ++ ords)%list <> []
       /\ Posixpath.normpath path = Py.join "/" (dds ++ ords)%list
       /\ Forall (fun c => c = "..") dds
       /\ Forall (fun c => ordinary_component c = true) ords.
Proof.
  intros Hne. unfold Posixpath.normpath.
  apply String.eqb_neq in Hne. rewrite Hne.
  destruct (Py.startswith "/" path) eqn:Habs.
  - left. destruct (Py.startswith "//" path && negb (Py.startswith "///" path))%bool;
      reflexivity.
  - right.
    destruct (normpath_fold_ok 0 (Py.split_on "/" path) [] (split_on_slash_free path))
      as (ords & dds & Hstack & Hords & Hdds & _).
    { exists [], []. repeat split; auto. }
    rewrite Hstack, List.rev_app_distr.
    destruct (Py.nonempty (Py.join "/" (rev dds ++ rev ords)%list)) eqn:Hj;
      [right | now left].
    exists (rev dds), (rev ords). split; [|split; [reflexivity|]].
    + intros He. rewrite He in Hj. discriminate Hj.
    + split; now apply List.Forall_rev.
Qed.

(** A joined list that begins with ".." is ".." or starts with "../". *)
Lemma join_dotdot rest :
  Py.join "/" (".." :: rest) = ".."
  \/ Py.startswith "../" (Py.join "/" (".." :: rest)) = true.
Proof. destruct rest; [now left | now right]. Qed.

Lemma join_ordinary_relative comps :
  Forall (fun c => ordinary_component c = true) comps ->
  Py.startswith "/" (Py.join "/" comps) = false.
Proof.
  intros H. destruct H as [|c comps Hc _]; [reflexivity|].
  unfold ordinary_component in Hc.
  apply andb_prop in Hc. destruct Hc as [Hc Hsf].
  apply andb_prop in Hc. destruct Hc as [Hc _].
  apply andb_prop in Hc. destruct Hc as [Hne _].
  assert (Py.startswith "/" c = false) as Hrel
    by (apply startswith_slash, slash_free_contains, Hsf).
  cbn [Py.join]. destruct comps; [exact Hrel|].
  destruct c as [|a c]; [discriminate Hne|].
  cbn [Py.startswith] in *. rewrite app_cons. cbn [Py.startswith].
  apply andb_false_iff in Hrel. destruct Hrel as [Hrel|Hrel]; [|discriminate Hrel].
  now rewrite Hrel.
Qed.

(** What [safe_join] lets through for a non-empty name: "." or a list of
    ordinary components, under the directory. *)
Lemma safe_join_shape directory name p :
  name <> "" ->
  Werkzeug.safe_join directory name = Some p ->
  exists rest,
    p = Posixpath.join (if Py.nonempty directory then directory else ".") rest
    /\ (rest = "."
        \/ exists comps,
             comps <> [] /\ rest = Py.join "/" comps
             /\ Forall (fun c => ordinary_component c = true) comps).
Proof.
  intros Hne. unfold Werkzeug.safe_join.
  pose proof Hne as Hne'. apply nonempty_neq in Hne'. rewrite Hne'.
  unfold Posixpath.isabs.
  destruct (normpath_cases name Hne) as [Habs|[Hdot|(dds & ords & Hnil & Hj & Hdds & Hords)]].
  - rewrite Habs. discriminate.
  - rewrite Hdot. cbn. intros H. injection H as <-. exists ".". split; [reflexivity | now left].
  - destruct dds as [|d dds].
    + cbn [app] in *. rewrite Hj, (join_ordinary_relative _ Hords). cbn [orb].
      destruct (_ || _)%bool; [discriminate|].
      intros H. injection H as <-. exists (Py.join "/" ords).
      split; [reflexivity|]. right. now exists ords.
    + inversion Hdds; subst. rewrite Hj. cbn [app].
      destruct (join_dotdot (dds ++ ords)%list) as [He|Hs].
      * rewrite He. cbn. discriminate.
      * rewrite Hs, !orb_true_r. discriminate.
Qed.

(** X14: whatever its two arguments are, with or without "/" or "..",
    the share view answers 200 only with the content of a file under the
    upload folder: the path it read is the folder, below [app.root_path]
    when it is relative, joined with "." or with components none of
    which is empty, ".", ".." or holds a "/". *)
Theorem share_view_stays_in_folder cfg (fs : gmap string (list byte)) io
    file_id name data :
  serve_shared_file cfg fs io file_id name = Some (FileContent data, 200) ->
  exists rest,
    fs !! os_resolve (cwd cfg)
            (Posixpath.join (root_path cfg)
               (Posixpath.join
                  (if Py.nonempty (UPLOAD_FOLDER cfg) then UPLOAD_FOLDER cfg else ".")
                  rest))
    = Some data
    /\ (rest = "."
        \/ exists comps,
             comps <> [] /\ rest = Py.join "/" comps
             /\ Forall (fun c => ordinary_component c = true) comps).
Proof.
  unfold serve_shared_file, Flask.send_from_directory, Werkzeug.send_from_directory.
  destruct (Werkzeug.safe_join (UPLOAD_FOLDER cfg) (storage_filename file_id name))
    as [p|] eqn:Hjoin; [|discriminate].
  cbv beta iota zeta.
  destruct (fs !! os_resolve (cwd cfg) (Posixpath.join (root_path cfg) p))
    as [found|] eqn:Hp; [|discriminate].
  destruct io; [discriminate|].
  intros H. assert (found = data) as -> by congruence.
  destruct (dashed_not_special _ (storage_filename_dashed file_id name)) as (Hne & _ & _).
  destruct (safe_join_shape _ _ _ Hne Hjoin) as (rest & -> & Hrest).
  exists rest. split; [exact Hp | exact Hrest].
Qed.

Lemma share_view_stays_in_folder_witness :
  exists rest,
    (<["/app/uploaded_files/b/0-c" := [x68; x69]]> ∅ : gmap string (list byte))
      !! os_resolve (cwd Koyeb.config)
           (Posixpath.join (root_path Koyeb.config)
              (Posixpath.join
                 (if Py.nonempty (UPLOAD_FOLDER Koyeb.config)
                  then UPLOAD_FOLDER Koyeb.config else ".") rest))
    = Some [x68; x69]
    /\ (rest = "."
        \/ exists comps,
             comps <> [] /\ rest = Py.join "/" comps
             /\ Forall (fun c => ordinary_component c = true) comps).
Proof.
  refine (share_view_stays_in_folder Koyeb.config
            (<["/app/uploaded_files/b/0-c" := [x68; x69]]> ∅) None "a/../b/./0" "c"
            [x68; x69] _).
  vm_compute. reflexivity.
Defined.

(** ** The identifier, byte by byte *)

Lemma from_bytes_shift bs : forall x,
  fold_left (fun acc b => acc * 256 + Z.of_N (Byte.to_N b)) bs x
  = x * 256 ^ Z.of_nat (length bs)
    + fold_left (fun acc b => acc * 256 + Z.of_N (Byte.to_N b)) bs 0.
Proof.
  induction bs as [|b bs IH]; intros x.
  - cbn. lia.
  - cbn [fold_left length]. rewrite IH, (IH (0 * 256 + _)).
    rewrite Nat2Z.inj_succ, Z.pow_succ_r by lia. ring.
Qed.

Lemma int_from_bytes_app (a b : list byte) :
  Uuid.int_from_bytes (a ++ b)
  = Uuid.int_from_bytes a * 256 ^ Z.of_nat (length b) + Uuid.int_from_bytes b.
Proof.
  unfold Uuid.int_from_bytes. rewrite fold_left_app. apply from_bytes_shift.
Qed.

Lemma byte_value_bound b : 0 <= Z.of_N (Byte.to_N b) < 256.
Proof. pose proof (Byte.to_N_bounded b). lia. Qed.

Lemma int_from_bytes_bound bs :
  0 <= Uuid.int_from_bytes bs < 256 ^ Z.of_nat (length bs).
Proof.
  induction bs as [|b bs IH] using rev_ind.
  - cbn. lia.
  - rewrite int_from_bytes_app, List.length_app. cbn [length].
    change (Uuid.int_from_bytes [b]) with (0 * 256 + Z.of_N (Byte.to_N b)).
    pose proof (byte_value_bound b).
    rewrite Nat2Z.inj_add, Z.pow_add_r by lia.
    change (256 ^ Z.of_nat 1) with 256.
    revert IH. generalize (256 ^ Z.of_nat (length bs)) (Uuid.int_from_bytes bs).
    intros P I IH. lia.
Qed.

(** The version and variant bits lie below bit 80. *)
Lemma uuid4_int_high bs :
  Z.shiftr (Uuid.uuid4_int bs) 80 = Z.shiftr (Uuid.int_from_bytes bs) 80.
Proof.
  unfold Uuid.uuid4_int. generalize (Uuid.int_from_bytes bs). intros n.
  rewrite Z.shiftr_lor, Z.shiftr_land, Z.shiftr_lor, Z.shiftr_land.
  change (Z.shiftr (Z.shiftl 4 76) 80) with 0.
  change (Z.shiftr (Z.shiftl 32768 48) 80) with 0.
  change (Z.shiftr (Z.lnot (Z.shiftl 61440 64)) 80) with (-1).
  change (Z.shiftr (Z.lnot (Z.shiftl 49152 48)) 80) with (-1).
  now rewrite !Z.lor_0_r, !Z.land_m1_r.
Qed.

Lemma uuid4_int_bound bs : length bs = 16%nat -> Uuid.uuid4_int bs < 16 ^ 32.
Proof.
  intros Hlen. pose proof (int_from_bytes_bound bs) as Hb. rewrite Hlen in Hb.
  pose proof (uuid4_int_nonneg bs) as Hn.
  pose proof (uuid4_int_high bs) as Hh.
  rewrite !Z.shiftr_div_pow2 in Hh by lia.
  assert (Uuid.int_from_bytes bs / 2 ^ 80 < 2 ^ 48) as Hq
    by (apply Z.div_lt_upper_bound; [lia|]; change (2 ^ 80 * 2 ^ 48) with (256 ^ 16); lia).
  rewrite <- Hh in Hq.
  pose proof (Z.div_mod (Uuid.uuid4_int bs) (2 ^ 80) ltac:(lia)) as Hdm.
  pose proof (Z.mod_pos_bound (Uuid.uuid4_int bs) (2 ^ 80) ltac:(lia)) as Hm.
  change (16 ^ 32) with (2 ^ 80 * 2 ^ 48). nia.
Qed.

Lemma hex_go_length fuel : forall n acc k,
  0 <= n < 16 ^ Z.of_nat k -> (1 <= k)%nat ->
  (String.length (Uuid.hex_go fuel n acc) <= k + String.length acc)%nat.
Proof.
  induction fuel as [|fuel IH]; intros n acc k Hn Hk; [cbn; lia|].
  cbn [Uuid.hex_go]. destruct (Z.eqb_spec (n / 16) 0) as [Hq|Hq].
  - cbn [String.length]. lia.
  - destruct k as [|[|k]]; [lia| |].
    + exfalso. apply Hq. apply Z.div_small. cbn in Hn. lia.
    + assert (0 <= n / 16 < 16 ^ Z.of_nat (S k)) as Hn'.
      { rewrite (Nat2Z.inj_succ (S k)), Z.pow_succ_r in Hn by lia.
        split; [apply Z.div_pos; lia | apply Z.div_lt_upper_bound; lia]. }
      specialize (IH (n / 16) (String (Uuid.hexdigit (n mod 16)) acc) (S k) Hn' ltac:(lia)).
      cbn [String.length] in IH. lia.
Qed.

Lemma format_032x_length_32 n :
  0 <= n < 16 ^ 32 -> String.length (Uuid.format_032x n) = 32%nat.
Proof.
  intros Hn. unfold Uuid.format_032x. rewrite length_app, length_zeros.
  pose proof (hex_go_length (S (Z.to_nat (Z.log2 n))) n "" 32 Hn ltac:(lia)) as H.
  unfold Uuid.format_x. cbn [String.length] in H. lia.
Qed.

Lemma take_drop n s : Py.take n s +:+ drop n s = s.
Proof.
  revert s. induction n as [|n IH]; intros [|c s]; try reflexivity.
  cbn [Py.take drop]. rewrite app_cons. now rewrite IH.
Qed.

Lemma length_drop n s : String.length (drop n s) = (String.length s - n)%nat.
Proof.
  revert s. induction n as [|n IH]; intros [|c s]; cbn; try lia. apply IH.
Qed.

Lemma all_drop p n s : Py.all p s = true -> Py.all p (drop n s) = true.
Proof.
  revert s. induction n as [|n IH]; intros [|c s]; cbn; try tauto.
  intros H. apply andb_prop in H. now apply IH.
Qed.

Lemma lower_hex_digit c :
  lower_hex c = true ->
  0 <= hex_digit_value c < 16 /\ c = Uuid.hexdigit (hex_digit_value c).
Proof.
  destruct c as [[] [] [] [] [] [] [] []]; vm_compute; intros H; try discriminate H;
    repeat split; congruence.
Qed.

(** A numeral after a prefix: the prefix moves up by the numeral's
    length, and the numeral itself stays below that power. *)
Lemma hex_value_shift s : forall a,
  Py.all lower_hex s = true ->
  hex_value a s = a * 16 ^ Z.of_nat (String.length s) + hex_value 0 s
  /\ 0 <= hex_value 0 s < 16 ^ Z.of_nat (String.length s).
Proof.
  induction s as [|c s IH]; intros a Hs.
  - cbn. lia.
  - cbn [Py.all] in Hs. apply andb_prop in Hs. destruct Hs as [Hc Hs].
    destruct (lower_hex_digit c Hc) as [Hd _].
    cbn [hex_value String.length].
    destruct (IH (a * 16 + hex_digit_value c) Hs) as [H1 _].
    destruct (IH (0 * 16 + hex_digit_value c) Hs) as [H2 H3].
    rewrite H1, H2, Nat2Z.inj_succ, Z.pow_succ_r by lia.
    revert H3. generalize (16 ^ Z.of_nat (String.length s)) (hex_value 0 s).
    intros P R H3. split; nia.
Qed.

(** Numerals of one length that denote one number are one numeral. *)
Lemma hex_value_inj s : forall t,
  String.length s = String.length t ->
  Py.all lower_hex s = true -> Py.all lower_hex t = true ->
  hex_value 0 s = hex_value 0 t -> s = t.
Proof.
  induction s as [|c s IH]; intros [|d t] Hlen Hs Ht Hv; try discriminate Hlen;
    [reflexivity|].
  injection Hlen as Hlen.
  cbn [Py.all] in Hs, Ht. apply andb_prop in Hs, Ht.
  destruct Hs as [Hc Hs], Ht as [Hd Ht].
  destruct (lower_hex_digit c Hc) as [Hcb Hce].
  destruct (lower_hex_digit d Hd) as [Hdb Hde].
  cbn [hex_value] in Hv.
  destruct (hex_value_shift s (0 * 16 + hex_digit_value c) Hs) as [H1 H2].
  destruct (hex_value_shift t (0 * 16 + hex_digit_value d) Ht) as [H3 H4].
  rewrite H1, H3, <- Hlen in Hv. rewrite <- Hlen in H4.
  assert (hex_digit_value c = hex_digit_value d /\ hex_value 0 s = hex_value 0 t)
    as [Hdig Hrest].
  { clear -Hv H2 H4. revert Hv H2 H4.
    generalize (16 ^ Z.of_nat (String.length s)) (hex_value 0 s) (hex_value 0 t).
    generalize (hex_digit_value c) (hex_digit_value d).
    intros dc dd P R1 R2 Hv H2 H4.
    assert (dc = dd) as ->.
    { destruct (Z.lt_trichotomy dc dd) as [H|[H|H]]; [exfalso|exact H|exfalso].
      - assert (1 * P <= (dd - dc) * P) by (apply Z.mul_le_mono_nonneg_r; lia). lia.
      - assert (1 * P <= (dc - dd) * P) by (apply Z.mul_le_mono_nonneg_r; lia). lia. }
    split; [reflexivity | lia]. }
  rewrite Hce, Hde, Hdig. f_equal. now apply IH.
Qed.

(** The first [n] digits of a numeral denote the number without its
    lower digits. *)
Lemma hex_value_take n s :
  Py.all lower_hex s = true ->
  hex_value 0 (Py.take n s)
  = hex_value 0 s / 16 ^ Z.of_nat (String.length s - n).
Proof.
  intros Hs. rewrite <- (take_drop n s) at 2.
  rewrite hex_value_app.
  destruct (hex_value_shift (drop n s) (hex_value 0 (Py.take n s)) (all_drop _ n s Hs))
    as [H1 H2].
  rewrite H1, length_drop.
  rewrite length_drop in H2.
  apply Z.div_unique with (hex_value 0 (drop n s)); [left; exact H2 | ring].
Qed.

Lemma hex_byte_value b a :
  hex_value a (hex_byte b) = a * 256 + Z.of_N (Byte.to_N b).
Proof.
  unfold hex_byte. pose proof (byte_value_bound b) as Hb.
  cbn [hex_value].
  rewrite !hex_digit_value_hexdigit.
  - pose proof (Z.div_mod (Z.of_N (Byte.to_N b)) 16 ltac:(lia)). lia.
  - apply Z.mod_pos_bound. lia.
  - split; [apply Z.div_pos; lia | apply Z.div_lt_upper_bound; lia].
Qed.

Lemma bytes_hex_value bs : forall a,
  hex_value a (bytes_hex bs)
  = fold_left (fun acc b => acc * 256 + Z.of_N (Byte.to_N b)) bs a.
Proof.
  induction bs as [|b bs IH]; intros a; [reflexivity|].
  cbn [bytes_hex fold_left]. now rewrite hex_value_app, hex_byte_value, IH.
Qed.

Lemma bytes_hex_length bs : String.length (bytes_hex bs) = (2 * length bs)%nat.
Proof.
  induction bs as [|b bs IH]; [reflexivity|].
  cbn [bytes_hex length]. rewrite length_app, IH. cbn. lia.
Qed.

Lemma bytes_hex_lower_hex bs : Py.all lower_hex (bytes_hex bs) = true.
Proof.
  induction bs as [|b bs IH]; [reflexivity|].
  cbn [bytes_hex]. rewrite all_app, IH. unfold hex_byte. cbn [Py.all].
  now rewrite !hexdigit_lower_hex.
Qed.

(** The first twelve digits of the UUID are its first six bytes. *)
Lemma uuid4_hex_first_six (b6 b10 : list byte) :
  length b6 = 6%nat -> length b10 = 10%nat ->
  Py.take 12 (Uuid.format_032x (Uuid.uuid4_int (b6 ++ b10))) = bytes_hex b6.
Proof.
  intros H6 H10.
  assert (length (b6 ++ b10) = 16%nat) as H16 by (rewrite List.length_app; lia).
  pose proof (uuid4_int_nonneg (b6 ++ b10)) as Hn.
  pose proof (uuid4_int_bound _ H16) as Hb.
  pose proof (format_032x_lower_hex (Uuid.uuid4_int (b6 ++ b10))) as Hhex.
  pose proof (format_032x_length_32 _ (conj Hn Hb)) as Hlen.
  apply hex_value_inj.
  - rewrite length_take, bytes_hex_length by lia. lia.
  - now apply all_take.
  - apply bytes_hex_lower_hex.
  - rewrite (hex_value_take 12 _ Hhex), Hlen, format_032x_value by exact Hn.
    rewrite bytes_hex_value. fold (Uuid.int_from_bytes b6).
    change (16 ^ Z.of_nat (32 - 12)) with (2 ^ 80).
    rewrite <- Z.shiftr_div_pow2, uuid4_int_high, Z.shiftr_div_pow2 by lia.
    rewrite int_from_bytes_app, H10.
    pose proof (int_from_bytes_bound b10) as Hb10. rewrite H10 in Hb10.
    change (256 ^ Z.of_nat 10) with (2 ^ 80) in *.
    symmetry. apply Z.div_unique with (Uuid.int_from_bytes b10); [left; lia | ring].
Qed.

Lemma hex_byte_inj b1 b2 : hex_byte b1 = hex_byte b2 -> b1 = b2.
Proof.
  intros H.
  pose proof (f_equal (hex_value 0) H) as Hv.
  rewrite !hex_byte_value in Hv.
  assert (Byte.to_N b1 = Byte.to_N b2) as Hn by lia.
  pose proof (Byte.of_to_N b1) as H1. rewrite Hn, Byte.of_to_N in H1.
  now injection H1.
Qed.

Lemma bytes_hex_inj bs1 : forall bs2,
  length bs1 = length bs2 -> bytes_hex bs1 = bytes_hex bs2 -> bs1 = bs2.
Proof.
  induction bs1 as [|b1 bs1 IH]; intros [|b2 bs2] Hlen H; try discriminate Hlen;
    [reflexivity|].
  injection Hlen as Hlen. cbn [bytes_hex] in H. unfold hex_byte in H.
  cbv zeta in H.
  change (String (Uuid.hexdigit (Z.of_N (Byte.to_N b1) / 16))
            (String (Uuid.hexdigit (Z.of_N (Byte.to_N b1) mod 16)) (bytes_hex bs1))
          = String (Uuid.hexdigit (Z.of_N (Byte.to_N b2) / 16))
              (String (Uuid.hexdigit (Z.of_N (Byte.to_N b2) mod 16)) (bytes_hex bs2)))
    in H.
  injection H as Hh Hl Hr.
  assert (hex_byte b1 = hex_byte b2) as Hb by (unfold hex_byte; now rewrite Hh, Hl).
  rewrite (hex_byte_inj _ _ Hb). f_equal. now apply IH.
Qed.

(** X15: the identifier of an upload is the lower-case hexadecimal text
    of the first six bytes read from [os.urandom]: the version and
    variant bits that [uuid4] fixes never reach it, so it carries 48
    random bits, and two uploads get the same identifier exactly when
    their first six random bytes agree. *)
Theorem unique_id_first_six_bytes env :
  unique_id env = bytes_hex (Uuid.os_urandom (urandom env) 6)
  /\ forall env',
       unique_id env = unique_id env'
       <-> Uuid.os_urandom (urandom env) 6 = Uuid.os_urandom (urandom env') 6.
Proof.
  assert (forall e, unique_id e = bytes_hex (Uuid.os_urandom (urandom e) 6)) as Hid.
  { intros e.
    exact (uuid4_hex_first_six (Uuid.os_urandom (urandom e) 6)
             (map (urandom e) (seq 6 10)) eq_refl eq_refl). }
  split; [apply Hid|].
  intros env'. rewrite (Hid env), (Hid env'). split.
  - apply bytes_hex_inj. reflexivity.
  - now intros ->.
Qed.

(** ** What of a request reaches the store *)

Lemma files_get_first name before file after :
  Forall (fun field : string * FileStorage => fst field <> name) before ->
  files_get name (before ++ (name, file) :: after) = Some file.
Proof.
  induction 1 as [|[k f] before Hk _ IH]; cbn [app files_get].
  - now rewrite String.eqb_refl.
  - cbn [fst] in Hk. apply String.eqb_neq in Hk. now rewrite Hk.
Qed.

(** X16: one upload stores one file: of the file fields of a request
    only the first one named "file" counts; fields of other names
    before it and any fields after it change neither the answer nor what
    is stored. *)
Theorem only_first_file_field cfg env auth root (fs : gmap string (list byte))
    before file after :
  Forall (fun field : string * FileStorage => fst field <> "file") before ->
  api_upload_file cfg env
    {| authorization := auth; files := before ++ ("file", file) :: after;
       url_root := root |} fs
  = api_upload_file cfg env
      {| authorization := auth; files := [("file", file)]; url_root := root |} fs.
Proof.
  intros Hb. unfold api_upload_file. cbn [authorization files url_root].
  rewrite (files_get_first "file" before file after Hb). reflexivity.
Qed.

Lemma only_first_file_field_witness :
  api_upload_file Koyeb.config Sample.env
    {| authorization := Some Sample.bearer;
       files := [("avatar", Sample.passwd)] ++ ("file", Sample.hello_txt)
                :: [("file", Sample.dots)];
       url_root := "http://localhost:8000/" |} ∅
  = api_upload_file Koyeb.config Sample.env
      {| authorization := Some Sample.bearer; files := [("file", Sample.hello_txt)];
         url_root := "http://localhost:8000/" |} ∅.
Proof.
  refine (only_first_file_field Koyeb.config Sample.env (Some Sample.bearer)
            "http://localhost:8000/" ∅ [("avatar", Sample.passwd)] Sample.hello_txt
            [("file", Sample.dots)] _).
  constructor; [discriminate | constructor].
Defined.

(** X17: the [fileSize] of the answer is the [Content-Length] of the
    file part and not the size of what is stored: two uploads that
    differ only in their payload get the same answer, and when they are
    accepted each payload is stored as sent while the answer reports the
    size the part declared. *)
Theorem answer_ignores_payload cfg env auth root (fs : gmap string (list byte))
    name size payload1 payload2 :
  let upload payload :=
    api_upload_file cfg env
      {| authorization := auth;
         files := [("file", {| filename := name; stream := payload;
                               content_length := size |})];
         url_root := root |} fs in
  fst (upload payload1) = fst (upload payload2)
  /\ (authenticate cfg auth = None -> name <> "" ->
      exists link date,
        fst (upload payload1)
        = Some (UploadJson true link (Werkzeug.secure_filename name) size date, 200)
        /\ snd (upload payload1)
             !! written_path cfg
                  (storage_filename (unique_id env) (Werkzeug.secure_filename name))
           = Some payload1
        /\ snd (upload payload2)
             !! written_path cfg
                  (storage_filename (unique_id env) (Werkzeug.secure_filename name))
           = Some payload2).
Proof.
  cbv zeta. unfold api_upload_file.
  cbn [authorization files url_root files_get filename stream content_length].
  rewrite String.eqb_refl. unfold file_truthy. cbn [filename].
  destruct (authenticate cfg auth); [split; [reflexivity | discriminate]|].
  destruct name as [|c name]; [split; [reflexivity | intros _ H; now elim H]|].
  cbn [String.eqb Py.nonempty]. cbv zeta. cbn [fst snd].
  split; [reflexivity|]. intros _ _. eexists _, _.
  split; [reflexivity|]. rewrite written_path_eq. split; apply lookup_insert_eq.
Qed.

Lemma answer_ignores_payload_witness :
  exists link date,
    fst (api_upload_file Koyeb.config Sample.env
           {| authorization := Some Sample.bearer;
              files := [("file", {| filename := "hello.txt"; stream := [x68; x69];
                                    content_length := 7 |})];
              url_root := "http://localhost:8000/" |} ∅)
    = Some (UploadJson true link (Werkzeug.secure_filename "hello.txt") 7 date, 200)
    /\ snd (api_upload_file Koyeb.config Sample.env
              {| authorization := Some Sample.bearer;
                 files := [("file", {| filename := "hello.txt"; stream := [x68; x69];
                                       content_length := 7 |})];
                 url_root := "http://localhost:8000/" |} ∅)
         !! written_path Koyeb.config
              (storage_filename (unique_id Sample.env)
                 (Werkzeug.secure_filename "hello.txt"))
       = Some [x68; x69]
    /\ snd (api_upload_file Koyeb.config Sample.env
              {| authorization := Some Sample.bearer;
                 files := [("file", {| filename := "hello.txt"; stream := [x78];
                                       content_length := 7 |})];
                 url_root := "http://localhost:8000/" |} ∅)
         !! written_path Koyeb.config
              (storage_filename (unique_id Sample.env)
                 (Werkzeug.secure_filename "hello.txt"))
       = Some [x78].
Proof.
  refine (proj2 (answer_ignores_payload Koyeb.config Sample.env (Some Sample.bearer)
                   "http://localhost:8000/" ∅ "hello.txt" 7 [x68; x69] [x78])
            eq_refl _).
  discriminate.
Defined.

(** ** Where the identifier ends *)


Lemma storage_filename_regroup a b c :
  storage_filename (a +:+ "-" +:+ b) c = storage_filename a (b +:+ "-" +:+ c).
Proof. unfold storage_filename. now rewrite !string_app_assoc. Qed.

(** Only the concatenated key counts for the share view. *)
Lemma serve_shared_file_regroup cfg (fs : gmap string (list byte)) io a b c data :
  serve_shared_file cfg fs io (a +:+ "-" +:+ b) c = Some (FileContent data, 200)
  <-> serve_shared_file cfg fs io a (b +:+ "-" +:+ c) = Some (FileContent data, 200).
Proof.
  unfold serve_shared_file. rewrite storage_filename_regroup.
  destruct (Flask.send_from_directory cfg fs io (UPLOAD_FOLDER cfg)
              (storage_filename a (b +:+ "-" +:+ c))); [tauto|].
  split; discriminate.
Qed.

Lemma regrouped_segments_served cfg (fs : gmap string (list byte)) id pre post data :
  same_directory cfg = true ->
  Py.nonempty (UPLOAD_FOLDER cfg) = true ->
  slash_free id = true -> slash_free (pre +:+ "-" +:+ post) = true ->
  serve_shared_file cfg
    (<[written_path cfg
         (storage_filename id (pre +:+ "-" +:+ post)) := data]> fs)
    None (id +:+ "-" +:+ pre) post
  = Some (FileContent data, 200).
Proof.
  intros Hsame Hd Hi Hn. apply serve_shared_file_regroup.
  rewrite (serve_shared_file_at_key _ _ _ _ _ Hd Hi Hn).
  rewrite (served_path_written cfg _ Hsame).
  now rewrite lookup_insert_eq.
Qed.

(** X18: the share view does not check that its first segment is an
    identifier: only the concatenated key counts.  Where the share view
    looks where the upload handler writes, a file uploaded under a name
    with a dash in it is also served when the part of the name before
    that dash is moved into the identifier segment. *)
Theorem stored_file_has_other_links cfg env request (fs fs' : gmap string (list byte))
    link pre post size date :
  same_directory cfg = true ->
  Py.nonempty (UPLOAD_FOLDER cfg) = true ->
  api_upload_file cfg env request fs
  = (Some (UploadJson true link (pre +:+ "-" +:+ post) size date, 200), fs') ->
  exists file,
    files_get "file" (files request) = Some file
    /\ serve_shared_file cfg fs' None (unique_id env +:+ "-" +:+ pre) post
       = Some (FileContent (stream file), 200).
Proof.
  intros Hsame Hd Hup.
  destruct (api_upload_file_200_inv _ _ _ _ _ _ _ _ _ Hup)
    as (file & Hf & _ & Hname & _ & Hfs).
  exists file. split; [exact Hf|].
  assert (slash_free (pre +:+ "-" +:+ post) = true) as Hsf
    by (rewrite Hname; apply secure_filename_slash_free).
  rewrite Hfs.
  exact (regrouped_segments_served cfg fs (unique_id env) pre post (stream file)
           Hsame Hd (unique_id_slash_free env) Hsf).
Qed.

Lemma stored_file_has_other_links_witness :
  exists file,
    files_get "file"
      (files (Sample.upload (Some Sample.bearer)
                [("file", {| filename := "my-file.txt"; stream := [x68; x69];
                             content_length := 0 |})]))
    = Some file
    /\ serve_shared_file Koyeb.config
         (<[written_path Koyeb.config
              (storage_filename (unique_id Sample.env) ("my" +:+ "-" +:+ "file.txt"))
            := [x68; x69]]> ∅)
         None (unique_id Sample.env +:+ "-" +:+ "my") "file.txt"
       = Some (FileContent (stream file), 200).
Proof.
  assert (api_upload_file Koyeb.config Sample.env
            (Sample.upload (Some Sample.bearer)
               [("file", {| filename := "my-file.txt"; stream := [x68; x69];
                            content_length := 0 |})]) ∅
          = (Some (UploadJson true
                     ("http://localhost:8000/" +:+ "share/" +:+ unique_id Sample.env
                      +:+ "/" +:+ "my-file.txt")
                     ("my" +:+ "-" +:+ "file.txt") 0 "2025-11-22T12:05:00.000000", 200),
             <[written_path Koyeb.config
                 (storage_filename (unique_id Sample.env) ("my" +:+ "-" +:+ "file.txt"))
               := [x68; x69]]> ∅))
    as Hup.
  { refine (api_upload_file_stores Koyeb.config Sample.env
              (Sample.upload (Some Sample.bearer)
                 [("file", {| filename := "my-file.txt"; stream := [x68; x69];
                              content_length := 0 |})])
              ∅ _ eq_refl eq_refl _).
    discriminate. }
  exact (stored_file_has_other_links Koyeb.config _ _ _ _ _ _ _ _ _
           eq_refl eq_refl Hup).
Defined.

(** ** The round trip, where the share view reads what the upload wrote *)

(** X19: where the share view looks where the upload handler writes (an
    absolute folder, or a process run in the directory of [app.py]), an
    upload that succeeds and returns the identifier and the sanitised
    name N is read back byte for byte by the share handler called with
    that identifier and N. *)
Theorem round_trip_in_same_directory cfg env request
    (fs fs' : gmap string (list byte)) link name size date :
  same_directory cfg = true ->
  Py.nonempty (UPLOAD_FOLDER cfg) = true ->
  api_upload_file cfg env request fs
  = (Some (UploadJson true link name size date, 200), fs') ->
  exists file,
    files_get "file" (files request) = Some file
    /\ filename file <> ""
    /\ name = Werkzeug.secure_filename (filename file)
    /\ link = url_root request +:+ "share/" +:+ unique_id env +:+ "/" +:+ name
    /\ serve_shared_file cfg fs' None (unique_id env) name
       = Some (FileContent (stream file), 200).
Proof.
  intros Hsame Hd Hup.
  destruct (api_upload_file_200_inv _ _ _ _ _ _ _ _ _ Hup)
    as (file & Hf & Hn & Hname & Hlink & Hfs).
  exists file. split; [exact Hf|]. split; [exact Hn|].
  split; [exact Hname|]. split; [exact Hlink|].
  assert (Hs : slash_free name = true).
  { rewrite Hname. exact (secure_filename_slash_free (filename file)). }
  rewrite Hfs.
  exact (proj1 (serve_after_upload cfg fs _ _ (stream file) Hd
                  (unique_id_slash_free env) Hs)
           (served_path_written cfg _ Hsame)).
Qed.

Lemma round_trip_in_same_directory_witness :
  exists file,
    files_get "file" [("file", Sample.hello_txt)] = Some file
    /\ filename file <> ""
    /\ "hello.txt" = Werkzeug.secure_filename (filename file)
    /\ "http://localhost:8000/" +:+ "share/" +:+ unique_id Sample.env +:+ "/"
       +:+ "hello.txt"
       = "http://localhost:8000/" +:+ "share/" +:+ unique_id Sample.env +:+ "/"
         +:+ "hello.txt"
    /\ serve_shared_file Koyeb.config
         (<[written_path Koyeb.config
              (storage_filename (unique_id Sample.env) "hello.txt") := [x68; x69]]>
            (∅ : gmap string (list byte)))
         None (unique_id Sample.env) "hello.txt"
       = Some (FileContent (stream file), 200).
Proof.
  assert (api_upload_file Koyeb.config Sample.env
            (Sample.upload (Some Sample.bearer) [("file", Sample.hello_txt)]) ∅
          = (Some (UploadJson true
                     ("http://localhost:8000/" +:+ "share/" +:+ unique_id Sample.env
                      +:+ "/" +:+ "hello.txt")
                     "hello.txt" 0 "2025-11-22T12:05:00.000000", 200),
             <[written_path Koyeb.config
                 (storage_filename (unique_id Sample.env) "hello.txt") := [x68; x69]]>
               (∅ : gmap string (list byte)))) as Hup.
  { refine (api_upload_file_stores Koyeb.config Sample.env
              (Sample.upload (Some Sample.bearer) [("file", Sample.hello_txt)])
              ∅ Sample.hello_txt eq_refl eq_refl _).
    discriminate. }
  exact (round_trip_in_same_directory Koyeb.config Sample.env
           (Sample.upload (Some Sample.bearer) [("file", Sample.hello_txt)])
           ∅ _ _ _ _ _ eq_refl eq_refl Hup).
Defined.

Lemma string_app_inv_tail a : forall b t, a +:+ t = b +:+ t -> a = b.
Proof.
  induction a as [|c a IH]; intros [|d b] t H.
  - reflexivity.
  - exfalso. pose proof (f_equal String.length H) as HL.
    rewrite !length_app in HL. cbn [String.length] in HL. lia.
  - exfalso. pose proof (f_equal String.length H) as HL.
    rewrite !length_app in HL. cbn [String.length] in HL. lia.
  - rewrite !app_cons in H. injection H as -> H. f_equal. exact (IH _ _ H).
Qed.

(** X20: which deployment reads where it writes.  With the absolute
    folder of [src/api/app.py] the share view looks where the upload
    handler writes wherever the application lies and the process runs;
    with the relative folder of [src/app.py] it does exactly when the
    process runs in the directory of [app.py]. *)
Theorem same_directory_of_deployments (root dir : string) :
  same_directory (Vercel.config_at root dir) = true
  /\ same_directory (Koyeb.config_at root dir)
     = (String.eqb root dir && Posixpath.isabs root)%bool
  /\ (forall leaf,
        served_path (Vercel.config_at root dir) leaf
        = written_path (Vercel.config_at root dir) leaf)
  /\ (forall leaf,
        Posixpath.isabs root = true -> Posixpath.isabs dir = true ->
        Py.startswith "/" leaf = false ->
        Py.endswith_char "/" root = false -> Py.endswith_char "/" dir = false ->
        (served_path (Koyeb.config_at root dir) leaf
         = written_path (Koyeb.config_at root dir) leaf <-> root = dir)).
Proof.
  split; [reflexivity|]. split; [reflexivity|]. split.
  - intros leaf. exact (served_path_written (Vercel.config_at root dir) leaf eq_refl).
  - intros leaf Hr Hc Hl Her Hec.
    rewrite served_path_eq, written_path_eq. unfold os_resolve.
    cbn [Koyeb.config_at UPLOAD_FOLDER root_path cwd].
    assert (Hx : Py.startswith "/" (Posixpath.join Koyeb.UPLOAD_FOLDER leaf) = false).
    { rewrite (join_relative_sep _ _ Hl). reflexivity. }
    rewrite (join_absolute dir (Posixpath.join root _) (isabs_join _ _ Hr)).
    rewrite (join_relative_sep root _ Hx), (join_relative_sep dir _ Hx).
    assert (Hsep : forall a, Posixpath.isabs a = true ->
                             Py.endswith_char "/" a = false -> sep_after a = "/").
    { intros a Ha He. unfold sep_after. rewrite He.
      destruct a; [discriminate Ha | reflexivity]. }
    rewrite (Hsep _ Hr Her), (Hsep _ Hc Hec).
    split.
    + intros H. exact (string_app_inv_tail _ _ _ H).
    + now intros ->.
Qed.

Lemma same_directory_of_deployments_witness :
  served_path (Koyeb.config_at "/repo/src" "/repo") "k"
  = written_path (Koyeb.config_at "/repo/src" "/repo") "k"
  <-> "/repo/src" = "/repo".
Proof.
  exact (proj2 (proj2 (proj2 (same_directory_of_deployments "/repo/src" "/repo")))
           "k" eq_refl eq_refl eq_refl eq_refl eq_refl).
Defined.
